(** * The payslip calculator of bradmode-tools

    A shallow embedding of [PayslipCalculator.tsx]: the reference tables, the
    tax / Medicare helpers and the [calculateResults] callback, followed by
    the properties the written specification states about them.

    Numbers.  A JavaScript number is embedded as [num]: the three special
    values NaN, -Infinity and +Infinity, and the finite values, carried as
    rationals.  Arithmetic on finite values is exact: binary64 rounding,
    overflow and the sign of zero are abstracted away.  NaN and the
    infinities follow IEEE 754, since the code depends on them (the [||]
    defaults, comparisons with [Infinity] in the tables).

    Objects used as tables ([Record<string, T>]) are embedded at their
    TypeScript type: a lookup yields a value or [undefined]; property names
    inherited from [Object.prototype] are outside the model. *)

From Stdlib Require Import ZArith QArith Qround Qabs Lqa Lia Bool List.
From Stdlib Require Import Ascii String.
Import ListNotations.

Local Open Scope Q_scope.

(** ** JavaScript numbers *)

Inductive num : Type :=
| NaN
| NInf
| PInf
| Fin (q : Q).

Module Num.

Definition is_nan (x : num) : bool :=
  match x with NaN => true | _ => false end.

Definition is_finite (x : num) : bool :=
  match x with Fin _ => true | _ => false end.

(** Sign of a rational: [Gt] positive, [Lt] negative, [Eq] zero. *)
Definition sgn (q : Q) : comparison := (q ?= 0)%Q.

Definition neg (x : num) : num :=
  match x with
  | NaN => NaN
  | NInf => PInf
  | PInf => NInf
  | Fin q => Fin (- q)
  end.

Definition add (x y : num) : num :=
  match x, y with
  | NaN, _ | _, NaN => NaN
  | PInf, NInf | NInf, PInf => NaN
  | PInf, _ | _, PInf => PInf
  | NInf, _ | _, NInf => NInf
  | Fin a, Fin b => Fin (a + b)
  end.

Definition sub (x y : num) : num := add x (neg y).

(** An infinity times a finite value: NaN at zero, else by sign. *)
Definition inf_times (pos : bool) (q : Q) : num :=
  match sgn q with
  | Eq => NaN
  | Gt => if pos then PInf else NInf
  | Lt => if pos then NInf else PInf
  end.

Definition mul (x y : num) : num :=
  match x, y with
  | NaN, _ | _, NaN => NaN
  | PInf, PInf | NInf, NInf => PInf
  | PInf, NInf | NInf, PInf => NInf
  | PInf, Fin q | Fin q, PInf => inf_times true q
  | NInf, Fin q | Fin q, NInf => inf_times false q
  | Fin a, Fin b => Fin (a * b)
  end.

(** Division; a zero divisor is taken as [+0]. *)
Definition div (x y : num) : num :=
  match x, y with
  | NaN, _ | _, NaN => NaN
  | (PInf | NInf), (PInf | NInf) => NaN
  | Fin _, (PInf | NInf) => Fin 0
  | PInf, Fin q => match sgn q with Lt => NInf | _ => PInf end
  | NInf, Fin q => match sgn q with Lt => PInf | _ => NInf end
  | Fin a, Fin b =>
      if Qeq_bool b 0 then
        match sgn a with Eq => NaN | Gt => PInf | Lt => NInf end
      else Fin (a / b)
  end.

(** The relational operators; every comparison with NaN is false. *)
Definition leb (x y : num) : bool :=
  match x, y with
  | NaN, _ | _, NaN => false
  | NInf, _ => true
  | _, PInf => true
  | PInf, _ => false
  | _, NInf => false
  | Fin a, Fin b => Qle_bool a b
  end.

Definition ltb (x y : num) : bool :=
  match x, y with
  | NaN, _ | _, NaN => false
  | PInf, _ => false
  | _, NInf => false
  | NInf, _ => true
  | _, PInf => true
  | Fin a, Fin b => negb (Qle_bool b a)
  end.

Definition geb (x y : num) : bool := leb y x.
Definition gtb (x y : num) : bool := ltb y x.

(** Strict equality [===] on numbers. *)
Definition eqb (x y : num) : bool :=
  match x, y with
  | PInf, PInf | NInf, NInf => true
  | Fin a, Fin b => Qeq_bool a b
  | _, _ => false
  end.

(** [ToBoolean]: zero and NaN are falsy. *)
Definition truthy (x : num) : bool :=
  match x with
  | NaN => false
  | Fin q => negb (Qeq_bool q 0)
  | _ => true
  end.

(** [x || d] on numbers. *)
Definition or_else (x d : num) : num := if truthy x then x else d.

(** [Math.floor] and [Math.min]. *)
Definition floor (x : num) : num :=
  match x with
  | Fin q => Fin (inject_Z (Qfloor q))
  | _ => x
  end.

Definition min (x y : num) : num :=
  match x, y with
  | NaN, _ | _, NaN => NaN
  | NInf, _ | _, NInf => NInf
  | PInf, z | z, PInf => z
  | Fin a, Fin b => if Qle_bool a b then x else y
  end.

End Num.

Declare Scope num_scope.
Delimit Scope num_scope with num.
Bind Scope num_scope with num.
Infix "+" := Num.add : num_scope.
Infix "-" := Num.sub : num_scope.
Infix "*" := Num.mul : num_scope.
Infix "/" := Num.div : num_scope.
Infix "<=?" := Num.leb (at level 70) : num_scope.
Infix "<?" := Num.ltb (at level 70) : num_scope.
Infix ">=?" := Num.geb (at level 70) : num_scope.
Infix ">?" := Num.gtb (at level 70) : num_scope.
Infix "===" := Num.eqb (at level 70) : num_scope.
Infix "||" := Num.or_else : num_scope.

Coercion Fin : Q >-> num.

(** ** Exceptions

    The only exception the component can raise is the [TypeError] of
    iterating over, or reading a property of, [undefined]. *)

Inductive outcome (A : Type) : Type :=
| Ok (a : A)
| TypeError.

Arguments Ok {A} a.
Arguments TypeError {A}.

Definition bind {A B : Type} (c : outcome A) (k : A -> outcome B) : outcome B :=
  match c with
  | Ok a => k a
  | TypeError => TypeError
  end.

Notation "x <- c ;; k" := (bind c (fun x => k))
  (at level 61, c at next level, right associativity).

(** ** Built-ins of the host: [parseFloat] and [Date] *)

Module JS.

Local Open Scope Z_scope.

Definition code (c : ascii) : Z := Z.of_nat (nat_of_ascii c).

Definition is_digit (c : ascii) : bool := (48 <=? code c) && (code c <=? 57).

Definition digit_val (c : ascii) : Z := code c - 48.

(** White space and line terminators, within ASCII. *)
Definition is_space (c : ascii) : bool :=
  ((9 <=? code c) && (code c <=? 13)) || (code c =? 32).

Fixpoint trim_start (s : string) : string :=
  match s with
  | String c r => if is_space c then trim_start r else s
  | EmptyString => s
  end.

(** The longest run of decimal digits at the head of [s], and the rest. *)
Fixpoint take_digits (s : string) : list Z * string :=
  match s with
  | String c r =>
      if is_digit c then
        let (ds, rest) := take_digits r in (digit_val c :: ds, rest)
      else ([], s)
  | EmptyString => ([], s)
  end.

Definition digits_value (ds : list Z) : Z :=
  fold_left (fun acc d => 10 * acc + d) ds 0.

Definition scale10 (q : Q) (e : Z) : Q :=
  if 0 <=? e then (q * inject_Z (10 ^ e))%Q
  else (q / inject_Z (10 ^ (- e)))%Q.

(** [ExponentPart], when one is present at the head of [s]; else 0. *)
Definition exponent_part (s : string) : Z :=
  match s with
  | String c r =>
      if (c =? "e")%char || (c =? "E")%char then
        let (negative, r') :=
          match r with
          | String "+"%char t => (false, t)
          | String "-"%char t => (true, t)
          | _ => (false, r)
          end in
        match take_digits r' with
        | ([], _) => 0
        | (ds, _) => if negative then - digits_value ds else digits_value ds
        end
      else 0
  | EmptyString => 0
  end.

(** The longest prefix that is a [StrUnsignedDecimalLiteral] other than
    [Infinity], as its mathematical value. *)
Definition unsigned_literal (s : string) : option Q :=
  let (ip, r1) := take_digits s in
  let (fp, r2) :=
    match r1 with
    | String "."%char t => take_digits t
    | _ => ([], r1)
    end in
  match ip, fp with
  | [], [] => None
  | _, _ =>
      Some (scale10 (inject_Z (digits_value (ip ++ fp)%list))
                    (exponent_part r2 - Z.of_nat (List.length fp)))
  end.

(** [parseFloat]: leading white space is skipped, the longest prefix that
    is a decimal literal is read, anything after it is ignored; NaN when
    there is no such prefix. *)
Definition parseFloat (s : string) : num :=
  let t := trim_start s in
  let (negative, u) :=
    match t with
    | String "+"%char r => (false, r)
    | String "-"%char r => (true, r)
    | _ => (false, t)
    end in
  if String.prefix "Infinity" u then (if negative then NInf else PInf)
  else
    match unsigned_literal u with
    | Some q => Fin (Qred (if negative then - q else q))
    | None => NaN
    end.

(** [!s] on a string: only the empty string is falsy. *)
Definition not_string (s : string) : bool :=
  match s with EmptyString => true | _ => false end.

End JS.

(** [Date].  A date object is its time value: milliseconds since the epoch,
    or [None] for an Invalid Date.  The host's local time is UTC shifted by
    a fixed number of minutes [tz] (east positive); daylight saving is not
    modelled.  [parse] reads the date-only form [YYYY-MM-DD], which is what
    a date input delivers, as UTC midnight; any other string is an Invalid
    Date. *)

Module Date.

Local Open Scope Z_scope.

Definition t : Type := option Z.

Definition msPerDay : Z := 86400000.
Definition msPerMinute : Z := 60000.

(** Days since 1970-01-01 of a proleptic Gregorian date, [m] in 1..12. *)
Definition days_from_civil (y m d : Z) : Z :=
  let y' := if m <=? 2 then y - 1 else y in
  let era := y' / 400 in
  let yoe := y' - era * 400 in
  let mp := if 2 <? m then m - 3 else m + 9 in
  let doy := (153 * mp + 2) / 5 + d - 1 in
  let doe := yoe * 365 + yoe / 4 - yoe / 100 + doy in
  era * 146097 + doe - 719468.

(** The inverse: year, month (1..12) and day of a day number. *)
Definition civil_from_days (z : Z) : Z * Z * Z :=
  let z' := z + 719468 in
  let era := z' / 146097 in
  let doe := z' - era * 146097 in
  let yoe := (doe - doe / 1460 + doe / 36524 - doe / 146096) / 365 in
  let doy := doe - (365 * yoe + yoe / 4 - yoe / 100) in
  let mp := (5 * doy + 2) / 153 in
  let d := doy - (153 * mp + 2) / 5 + 1 in
  let m := if mp <? 10 then mp + 3 else mp - 9 in
  (yoe + era * 400 + (if m <=? 2 then 1 else 0), m, d).

Definition is_leap (y : Z) : bool :=
  ((y mod 4 =? 0) && negb (y mod 100 =? 0)) || (y mod 400 =? 0).

Definition days_in_month (y m : Z) : Z :=
  if m =? 2 then (if is_leap y then 29 else 28)
  else if (m =? 4) || (m =? 6) || (m =? 9) || (m =? 11) then 30
  else 31.

Definition timeClip (ms : Z) : t :=
  if Z.abs ms <=? 8640000000000000 then Some ms else None.

Definition all_digits (s : string) : bool :=
  match JS.take_digits s with
  | (_, EmptyString) => true
  | _ => false
  end.

Definition number_of (s : string) : Z :=
  JS.digits_value (fst (JS.take_digits s)).

(** [new Date(s)] for a string [s]. *)
Definition parse (s : string) : t :=
  let ys := substring 0 4 s in
  let ms := substring 5 2 s in
  let ds := substring 8 2 s in
  if (String.length s =? 10)%nat
     && (substring 4 1 s =? "-")%string && (substring 7 1 s =? "-")%string
     && all_digits ys && all_digits ms && all_digits ds
  then
    let y := number_of ys in
    let m := number_of ms in
    let d := number_of ds in
    if (1 <=? m) && (m <=? 12) && (1 <=? d) && (d <=? days_in_month y m)
    then timeClip (days_from_civil y m d * msPerDay)
    else None
  else None.

(** [d.getTime()], also the value a date takes under [>]. *)
Definition getTime (d : t) : num :=
  match d with
  | Some ms => Fin (inject_Z ms)
  | None => NaN
  end.

Definition localCivil (tz : Z) (ms : Z) : Z * Z * Z :=
  civil_from_days ((ms + tz * msPerMinute) / msPerDay).

(** [d.getFullYear()] and [d.getMonth()] (January is 0), in local time. *)
Definition getFullYear (tz : Z) (d : t) : num :=
  match d with
  | Some ms => Fin (inject_Z (fst (fst (localCivil tz ms))))
  | None => NaN
  end.

Definition getMonth (tz : Z) (d : t) : num :=
  match d with
  | Some ms => Fin (inject_Z (snd (fst (localCivil tz ms)) - 1))
  | None => NaN
  end.

(** [ToIntegerOrInfinity] on a finite value: truncation towards zero. *)
Definition truncate (q : Q) : Z :=
  if Qle_bool 0 q then Qfloor q else Qceiling q.

(** [new Date(year, month, day)], local midnight; [month] is 0-based and
    may overflow into the neighbouring years, and a year in 0..99 stands
    for 1900 + year. *)
Definition make (tz : Z) (year : num) (month day : Z) : t :=
  match year with
  | Fin q =>
      let yi := truncate q in
      let yr := if (0 <=? yi) && (yi <=? 99) then 1900 + yi else yi in
      let ym := yr + month / 12 in
      let mn := month mod 12 in
      timeClip ((days_from_civil ym (mn + 1) 1 + day - 1) * msPerDay
                - tz * msPerMinute)
  | _ => None
  end.

End Date.

(** ** Reference tables *)

Local Open Scope string_scope.
Local Open Scope num_scope.

(** [table[key]] on an object literal: the value, or [undefined]. *)
Definition lookup {A : Type} (table : list (string * A)) (key : string) : option A :=
  match find (fun entry => (fst entry =? key)%string) table with
  | Some entry => Some (snd entry)
  | None => None
  end.

(** [undefined] in an arithmetic position is NaN. *)
Definition toNumber (v : option num) : num :=
  match v with Some x => x | None => NaN end.

(** [v || d] where [v] may be [undefined]. *)
Definition or_default (v : option num) (d : num) : num :=
  match v with Some x => x || d | None => d end.

Module TaxBracket.
Record t : Type := mk { min : num; max : num; rate : num; offset : num }.
End TaxBracket.

Module Thresholds.
Record t : Type := mk { lower : num; upper : num }.
End Thresholds.

Module MlsThreshold.
Record t : Type := mk { min : num; max : num; rate : num }.
End MlsThreshold.

Definition taxBrackets : list (string * list TaxBracket.t) :=
  [ ("2024-25",
      [ TaxBracket.mk 0 18200 0 0;
        TaxBracket.mk 18201 45000 0.19 0;
        TaxBracket.mk 45001 120000 0.325 5092;
        TaxBracket.mk 120001 180000 0.37 29467;
        TaxBracket.mk 180001 PInf 0.45 51667 ]);
    ("2025-26",
      [ TaxBracket.mk 0 18200 0 0;
        TaxBracket.mk 18201 45000 0.16 0;
        TaxBracket.mk 45001 135000 0.30 4288;
        TaxBracket.mk 135001 190000 0.37 31288;
        TaxBracket.mk 190001 PInf 0.45 51638 ]) ].

Definition medicareLevy : list (string * num) :=
  [ ("2024-25", Fin 0.02); ("2025-26", Fin 0.02) ].

Definition superRates : list (string * num) :=
  [ ("2024-25", Fin 0.115); ("2025-26", Fin 0.12) ].

Definition medicareLevyThresholds : list (string * Thresholds.t) :=
  [ ("2024-25", Thresholds.mk 27222 34027);
    ("2025-26", Thresholds.mk 27222 34027) ].

Definition mlsThresholds : list (string * list MlsThreshold.t) :=
  [ ("2024-25",
      [ MlsThreshold.mk 0 97000 0;
        MlsThreshold.mk 97001 113000 0.01;
        MlsThreshold.mk 113001 151000 0.0125;
        MlsThreshold.mk 151001 PInf 0.015 ]);
    ("2025-26",
      [ MlsThreshold.mk 0 101000 0;
        MlsThreshold.mk 101001 118000 0.01;
        MlsThreshold.mk 118001 158000 0.0125;
        MlsThreshold.mk 158001 PInf 0.015 ]) ].

(** ** The helpers *)

(** Whether the test of the loop in [calculateTax] accepts [bracket]. *)
Definition inBracket (taxableIncome : num) (bracket : TaxBracket.t) : bool :=
  (taxableIncome >=? TaxBracket.min bracket)
  && (taxableIncome <=? TaxBracket.max bracket).

Definition bracketTax (taxableIncome : num) (bracket : TaxBracket.t) : num :=
  TaxBracket.offset bracket
  + (taxableIncome - TaxBracket.min bracket + 1) * TaxBracket.rate bracket.

(** The [for ... of] loop of [calculateTax]; [tax] is the value of the
    variable when the loop is entered. *)
Fixpoint calculateTax_loop (taxableIncome : num) (brackets : list TaxBracket.t)
    (tax : num) : num :=
  match brackets with
  | [] => tax
  | bracket :: rest =>
      if inBracket taxableIncome bracket
      then bracketTax taxableIncome bracket
      else calculateTax_loop taxableIncome rest tax
  end.

Definition calculateTax (taxableIncome : num) (year : string) : outcome num :=
  match lookup taxBrackets year with
  | None => TypeError
  | Some brackets => Ok (calculateTax_loop taxableIncome brackets 0)
  end.

Definition calculateMedicareLevy (taxableIncome : num) (year : string) : outcome num :=
  let rate := toNumber (lookup medicareLevy year) in
  match lookup medicareLevyThresholds year with
  | None => TypeError
  | Some thresholds =>
      if taxableIncome <=? Thresholds.lower thresholds then Ok (Fin 0)
      else if taxableIncome <=? Thresholds.upper thresholds then
        let reduction :=
          (Thresholds.upper thresholds - taxableIncome)
          / (Thresholds.upper thresholds - Thresholds.lower thresholds) in
        Ok (taxableIncome * rate * (1 - reduction))
      else Ok (taxableIncome * rate)
  end.

Fixpoint mls_loop (taxableIncome : num) (thresholds : list MlsThreshold.t) : num :=
  match thresholds with
  | [] => 0
  | threshold :: rest =>
      if (taxableIncome >=? MlsThreshold.min threshold)
         && (taxableIncome <=? MlsThreshold.max threshold)
      then taxableIncome * MlsThreshold.rate threshold
      else mls_loop taxableIncome rest
  end.

Definition calculateMedicareLevySurcharge (taxableIncome : num) (year : string)
    (hasInsurance : bool) : outcome num :=
  if hasInsurance then Ok (Fin 0)
  else
    match lookup mlsThresholds year with
    | None => TypeError
    | Some thresholds => Ok (mls_loop taxableIncome thresholds)
    end.

Definition getPayPeriodsPerYear (frequency : string) : num :=
  let periods : list (string * num) :=
    [ ("weekly", Fin 52.18); ("fortnightly", Fin 26.09);
      ("monthly", Fin 12); ("quarterly", Fin 4) ] in
  or_default (lookup periods frequency) 26.09.

Definition getPayPeriodDays (frequency : string) : num :=
  let days : list (string * num) :=
    [ ("weekly", Fin 7); ("fortnightly", Fin 14);
      ("monthly", Fin 30.44); ("quarterly", Fin 91.33) ] in
  or_default (lookup days frequency) 14.

(** ** The component state *)

Module InputState.
Record t : Type := mk {
  payFrequency : string;
  payDate : string;
  periodEndDate : string;
  annualSalary : string;
  employmentStartDate : string;
  taxYear : string;
  fullTimeHours : string;
  fte : string;
  hasPrivateHealthInsurance : bool
}.
End InputState.

Module Ytd.
Record t : Type := mk {
  gross : num;
  tax : num;
  medicareLevy : num;
  medicareLevySurcharge : num;
  totalMedicareCharges : num;
  net : num;
  super : num
}.
End Ytd.

Module CalculationResults.
Record t : Type := mk {
  grossPay : num;
  taxableIncome : num;
  tax : num;
  medicareLevy : num;
  medicareLevySurcharge : num;
  totalMedicareCharges : num;
  netIncome : num;
  superannuation : num;
  annualLeaveAccrual : num;
  hoursWorked : num;
  hourlyRate : num;
  ytd : Ytd.t;
  periodsPerYear : num;
  payPeriodDays : num;
  periodsToDate : num;
  effectiveAnnualSalary : num;
  fte : num
}.
End CalculationResults.

(** The [const] bindings of the body of [calculateResults], in the order
    the source declares them. *)
Module Locals.
Record t : Type := mk {
  annualSalary : num;
  fullTimeHours : num;
  fte : num;
  periodsPerYear : num;
  payPeriodDays : num;
  effectiveAnnualSalary : num;
  grossPay : num;
  annualTax : num;
  taxPerPeriod : num;
  annualMedicareLevy : num;
  annualMedicareLevySurcharge : num;
  annualTotalMedicareCharges : num;
  medicareLevyPerPeriod : num;
  medicareLevySurchargePerPeriod : num;
  totalMedicareChargesPerPeriod : num;
  netPay : num;
  superRate : num;
  superannuation : num;
  hoursPerPeriod : num;
  annualLeaveDaysPerYear : num;
  workingDaysPerYear : num;
  annualLeaveAccrualRate : num;
  workingDaysThisPeriod : num;
  annualLeaveAccrualDays : num;
  hoursPerDay : num;
  annualLeaveAccrualHours : num;
  payDate : Date.t;
  employmentStart : Date.t;
  financialYearStart : Date.t;
  ytdStartDate : Date.t;
  daysDiff : num;
  yearDays : num;
  ytdProportion : num;
  ytdMaxGross : num;
  ytdMaxTax : num;
  ytdMaxMedicareLevy : num;
  ytdMaxMedicareLevySurcharge : num;
  ytdMaxTotalMedicareCharges : num;
  ytdMaxNet : num;
  ytdMaxSuper : num;
  periodsToDate : num;
  ytdGross : num;
  ytdTax : num;
  ytdMedicareLevy : num;
  ytdMedicareLevySurcharge : num;
  ytdTotalMedicareCharges : num;
  ytdNet : num;
  ytdSuper : num;
  hourlyRate : num
}.
End Locals.

(** [useState]: the inputs and the last result set, [None] for [null]. *)
Record Component : Type := mkComponent {
  inputs : InputState.t;
  results : option CalculationResults.t
}.

Definition initialState : Component :=
  {| inputs :=
       {| InputState.payFrequency := "fortnightly";
          InputState.payDate := "";
          InputState.periodEndDate := "";
          InputState.annualSalary := "";
          InputState.employmentStartDate := "";
          InputState.taxYear := "2025-26";
          InputState.fullTimeHours := "38";
          InputState.fte := "1.0";
          InputState.hasPrivateHealthInsurance := false |};
     results := None |}.

Definition setResults (st : Component) (r : CalculationResults.t) : Component :=
  {| inputs := inputs st; results := Some r |}.

(** ** [calculateResults] *)

(** The guard at the head of [calculateResults]. *)
Definition incomplete (i : InputState.t) : bool :=
  JS.not_string (InputState.annualSalary i)
  || JS.not_string (InputState.payDate i)
  || JS.not_string (InputState.periodEndDate i)
  || JS.not_string (InputState.employmentStartDate i).

(** The body after the guard, up to the call of [setResults]. *)
Definition computeLocals (tz : Z) (i : InputState.t) : outcome Locals.t :=
  let annualSalary := JS.parseFloat (InputState.annualSalary i) in
  let fullTimeHours := JS.parseFloat (InputState.fullTimeHours i) || 38 in
  let fte := JS.parseFloat (InputState.fte i) || 1.0 in
  let periodsPerYear := getPayPeriodsPerYear (InputState.payFrequency i) in
  let payPeriodDays := getPayPeriodDays (InputState.payFrequency i) in
  let effectiveAnnualSalary := annualSalary * fte in
  let grossPay := effectiveAnnualSalary / periodsPerYear in
  annualTax <- calculateTax effectiveAnnualSalary (InputState.taxYear i) ;;
  let taxPerPeriod := annualTax / periodsPerYear in
  annualMedicareLevy <-
    calculateMedicareLevy effectiveAnnualSalary (InputState.taxYear i) ;;
  annualMedicareLevySurcharge <-
    calculateMedicareLevySurcharge effectiveAnnualSalary (InputState.taxYear i)
      (InputState.hasPrivateHealthInsurance i) ;;
  let annualTotalMedicareCharges :=
    annualMedicareLevy + annualMedicareLevySurcharge in
  let medicareLevyPerPeriod := annualMedicareLevy / periodsPerYear in
  let medicareLevySurchargePerPeriod :=
    annualMedicareLevySurcharge / periodsPerYear in
  let totalMedicareChargesPerPeriod :=
    annualTotalMedicareCharges / periodsPerYear in
  let netPay := grossPay - taxPerPeriod - totalMedicareChargesPerPeriod in
  let superRate := toNumber (lookup superRates (InputState.taxYear i)) in
  let superannuation := grossPay * superRate in
  let hoursPerPeriod := (fullTimeHours * fte * payPeriodDays) / 7 in
  let annualLeaveDaysPerYear := 20 * fte in
  let workingDaysPerYear : num := 260.87 in
  let annualLeaveAccrualRate := annualLeaveDaysPerYear / workingDaysPerYear in
  let workingDaysThisPeriod := payPeriodDays * 5 / 7 in
  let annualLeaveAccrualDays := workingDaysThisPeriod * annualLeaveAccrualRate in
  let hoursPerDay := fullTimeHours / 5 in
  let annualLeaveAccrualHours := annualLeaveAccrualDays * hoursPerDay in
  let payDate := Date.parse (InputState.payDate i) in
  let employmentStart := Date.parse (InputState.employmentStartDate i) in
  let financialYearStart :=
    Date.make tz
      (Date.getFullYear tz payDate
       - (if Date.getMonth tz payDate <? 6 then 1 else 0))
      6 1 in
  let ytdStartDate :=
    if Date.getTime employmentStart >? Date.getTime financialYearStart
    then employmentStart else financialYearStart in
  let daysDiff :=
    Num.floor ((Date.getTime payDate - Date.getTime ytdStartDate)
               / (1000 * 60 * 60 * 24)) in
  let yearDays : num := 365.25 in
  let ytdProportion := daysDiff / yearDays in
  let ytdMaxGross := effectiveAnnualSalary * ytdProportion in
  let ytdMaxTax := annualTax * ytdProportion in
  let ytdMaxMedicareLevy := annualMedicareLevy * ytdProportion in
  let ytdMaxMedicareLevySurcharge := annualMedicareLevySurcharge * ytdProportion in
  let ytdMaxTotalMedicareCharges := annualTotalMedicareCharges * ytdProportion in
  let ytdMaxNet := ytdMaxGross - ytdMaxTax - ytdMaxTotalMedicareCharges in
  let ytdMaxSuper := ytdMaxGross * superRate in
  let periodsToDate := Num.floor (daysDiff / payPeriodDays) + 1 in
  let ytdGross := Num.min (grossPay * periodsToDate) ytdMaxGross in
  let ytdTax := Num.min (taxPerPeriod * periodsToDate) ytdMaxTax in
  let ytdMedicareLevy :=
    Num.min (medicareLevyPerPeriod * periodsToDate) ytdMaxMedicareLevy in
  let ytdMedicareLevySurcharge :=
    Num.min (medicareLevySurchargePerPeriod * periodsToDate)
            ytdMaxMedicareLevySurcharge in
  let ytdTotalMedicareCharges :=
    Num.min (totalMedicareChargesPerPeriod * periodsToDate)
            ytdMaxTotalMedicareCharges in
  let ytdNet := Num.min (netPay * periodsToDate) ytdMaxNet in
  let ytdSuper := Num.min (superannuation * periodsToDate) ytdMaxSuper in
  let hourlyRate := effectiveAnnualSalary / (52.18 * fullTimeHours * fte) in
  Ok (Locals.mk
        annualSalary fullTimeHours fte periodsPerYear payPeriodDays
        effectiveAnnualSalary grossPay annualTax taxPerPeriod
        annualMedicareLevy annualMedicareLevySurcharge
        annualTotalMedicareCharges medicareLevyPerPeriod
        medicareLevySurchargePerPeriod totalMedicareChargesPerPeriod netPay
        superRate superannuation hoursPerPeriod annualLeaveDaysPerYear
        workingDaysPerYear annualLeaveAccrualRate workingDaysThisPeriod
        annualLeaveAccrualDays hoursPerDay annualLeaveAccrualHours
        payDate employmentStart financialYearStart ytdStartDate daysDiff
        yearDays ytdProportion ytdMaxGross ytdMaxTax ytdMaxMedicareLevy
        ytdMaxMedicareLevySurcharge ytdMaxTotalMedicareCharges ytdMaxNet
        ytdMaxSuper periodsToDate ytdGross ytdTax ytdMedicareLevy
        ytdMedicareLevySurcharge ytdTotalMedicareCharges ytdNet ytdSuper
        hourlyRate).

(** The object literal handed to [setResults]. *)
Definition resultsOf (l : Locals.t) : CalculationResults.t :=
  {| CalculationResults.grossPay := Locals.grossPay l;
     CalculationResults.taxableIncome := Locals.grossPay l;
     CalculationResults.tax := Locals.taxPerPeriod l;
     CalculationResults.medicareLevy := Locals.medicareLevyPerPeriod l;
     CalculationResults.medicareLevySurcharge :=
       Locals.medicareLevySurchargePerPeriod l;
     CalculationResults.totalMedicareCharges :=
       Locals.totalMedicareChargesPerPeriod l;
     CalculationResults.netIncome := Locals.netPay l;
     CalculationResults.superannuation := Locals.superannuation l;
     CalculationResults.annualLeaveAccrual := Locals.annualLeaveAccrualHours l;
     CalculationResults.hoursWorked := Locals.hoursPerPeriod l;
     CalculationResults.hourlyRate := Locals.hourlyRate l;
     CalculationResults.ytd :=
       {| Ytd.gross := Locals.ytdGross l;
          Ytd.tax := Locals.ytdTax l;
          Ytd.medicareLevy := Locals.ytdMedicareLevy l;
          Ytd.medicareLevySurcharge := Locals.ytdMedicareLevySurcharge l;
          Ytd.totalMedicareCharges := Locals.ytdTotalMedicareCharges l;
          Ytd.net := Locals.ytdNet l;
          Ytd.super := Locals.ytdSuper l |};
     CalculationResults.periodsPerYear := Locals.periodsPerYear l;
     CalculationResults.payPeriodDays := Locals.payPeriodDays l;
     CalculationResults.periodsToDate := Locals.periodsToDate l;
     CalculationResults.effectiveAnnualSalary := Locals.effectiveAnnualSalary l;
     CalculationResults.fte := Locals.fte l |}.

(** [calculateResults], as the effect runs it on the current state: the
    state afterwards, or the exception raised. *)
Definition calculateResults (tz : Z) (st : Component) : outcome Component :=
  if incomplete (inputs st) then Ok st
  else
    l <- computeLocals tz (inputs st) ;;
    Ok (setResults st (resultsOf l)).

(** ** Notions used in the statements *)

(** The brackets of a table that contain an income. *)
Definition bracketsContaining (income : num) (brackets : list TaxBracket.t)
  : list TaxBracket.t :=
  filter (inBracket income) brackets.

(** Sorted ascending without overlap: every bracket has [min <= max] and
    ends strictly below the start of its successor. *)
Fixpoint ascending (brackets : list TaxBracket.t) : bool :=
  match brackets with
  | [] => true
  | b1 :: rest =>
      (TaxBracket.min b1 <=? TaxBracket.max b1)
      && match rest with
         | [] => true
         | b2 :: _ => (TaxBracket.max b1 <? TaxBracket.min b2) && ascending rest
         end
  end.

(** Contiguous in whole dollars: every bracket starts one dollar above the
    end of its predecessor. *)
Fixpoint dollarContiguous (brackets : list TaxBracket.t) : bool :=
  match brackets with
  | b1 :: ((b2 :: _) as rest) =>
      (TaxBracket.max b1 + 1 === TaxBracket.min b2) && dollarContiguous rest
  | _ => true
  end.

Definition startsAtZero (brackets : list TaxBracket.t) : bool :=
  match brackets with
  | b :: _ => TaxBracket.min b === 0
  | [] => false
  end.

Definition lastUnbounded (brackets : list TaxBracket.t) : bool :=
  match rev brackets with
  | b :: _ => match TaxBracket.max b with PInf => true | _ => false end
  | [] => false
  end.

(** The levy of either tax year, as a function of the income alone. *)
Definition levyOf (x : num) : num :=
  if x <=? 27222 then 0
  else if x <=? 34027 then x * 0.02 * (1 - (34027 - x) / (34027 - 27222))
  else x * 0.02.

(** The tapered levy on a finite income. *)
Definition taperQ (x : Q) : Q :=
  (x * 0.02 * (1 - (34027 - x) / (34027 - 27222)))%Q.

(** [x] is within [tol] of the decimal [v]. *)
Definition closeTo (x : num) (v tol : Q) : bool :=
  match x with
  | Fin q => negb (Qle_bool tol (Qabs (q - v)))
  | _ => false
  end.

(** The inputs after [handleInputChange('fte', value)]. *)
Definition withFte (i : InputState.t) (value : string) : InputState.t :=
  {| InputState.payFrequency := InputState.payFrequency i;
     InputState.payDate := InputState.payDate i;
     InputState.periodEndDate := InputState.periodEndDate i;
     InputState.annualSalary := InputState.annualSalary i;
     InputState.employmentStartDate := InputState.employmentStartDate i;
     InputState.taxYear := InputState.taxYear i;
     InputState.fullTimeHours := InputState.fullTimeHours i;
     InputState.fte := value;
     InputState.hasPrivateHealthInsurance :=
       InputState.hasPrivateHealthInsurance i |}.

(** The scenario of the specification, with dates to complete the input. *)
Definition scenarioInputs (payDate periodEndDate employmentStartDate : string)
  : InputState.t :=
  {| InputState.payFrequency := "fortnightly";
     InputState.payDate := payDate;
     InputState.periodEndDate := periodEndDate;
     InputState.annualSalary := "90000";
     InputState.employmentStartDate := employmentStartDate;
     InputState.taxYear := "2025-26";
     InputState.fullTimeHours := "38";
     InputState.fte := "1.0";
     InputState.hasPrivateHealthInsurance := true |}.

Definition scenario : InputState.t :=
  scenarioInputs "2025-08-15" "2025-08-14" "2020-01-01".

(** ** Input changes and the surcharge note *)

(** The keys of [InputState], each with the type of its value. *)
Module Field.
Inductive t : Type -> Type :=
| payFrequency : t string
| payDate : t string
| periodEndDate : t string
| annualSalary : t string
| employmentStartDate : t string
| taxYear : t string
| fullTimeHours : t string
| fte : t string
| hasPrivateHealthInsurance : t bool.
End Field.

(** The updater [prev => ({ ...prev, [field]: value })]. *)
Definition updateInputs {V : Type} (prev : InputState.t) (field : Field.t V)
    (value : V) : InputState.t :=
  let '(InputState.mk frequency pay periodEnd salary start year hours fte
          insured) := prev in
  match field in Field.t V return V -> InputState.t with
  | Field.payFrequency => fun v =>
      InputState.mk v pay periodEnd salary start year hours fte insured
  | Field.payDate => fun v =>
      InputState.mk frequency v periodEnd salary start year hours fte insured
  | Field.periodEndDate => fun v =>
      InputState.mk frequency pay v salary start year hours fte insured
  | Field.annualSalary => fun v =>
      InputState.mk frequency pay periodEnd v start year hours fte insured
  | Field.employmentStartDate => fun v =>
      InputState.mk frequency pay periodEnd salary v year hours fte insured
  | Field.taxYear => fun v =>
      InputState.mk frequency pay periodEnd salary start v hours fte insured
  | Field.fullTimeHours => fun v =>
      InputState.mk frequency pay periodEnd salary start year v fte insured
  | Field.fte => fun v =>
      InputState.mk frequency pay periodEnd salary start year hours v insured
  | Field.hasPrivateHealthInsurance => fun v =>
      InputState.mk frequency pay periodEnd salary start year hours fte v
  end value.

(** [handleInputChange(field, value)]: the inputs are replaced, the results
    stay until the effect runs [calculateResults] again. *)
Definition handleInputChange {V : Type} (st : Component) (field : Field.t V)
    (value : V) : Component :=
  {| inputs := updateInputs (inputs st) field value; results := results st |}.

(** The state once the effect has run after [handleInputChange]. *)
Definition inputChanged {V : Type} (tz : Z) (st : Component) (field : Field.t V)
    (value : V) : outcome Component :=
  calculateResults tz (handleInputChange st field value).

(** The line of the calculation notes about the surcharge. *)
Inductive SurchargeNote : Type :=
| SurchargeApplies
| NoSurchargeInsured
| NoSurchargeBelowThreshold.

Definition surchargeNote (i : InputState.t) (r : CalculationResults.t)
  : SurchargeNote :=
  if CalculationResults.medicareLevySurcharge r >? 0 then SurchargeApplies
  else if InputState.hasPrivateHealthInsurance i then NoSurchargeInsured
  else NoSurchargeBelowThreshold.

(** ** The financial year of a day *)

(** The day number of the first of July that starts the financial year of
    the day [z]: July of the same year from July on, of the year before
    up to June. *)
Definition fyStartDay (z : Z) : Z :=
  let c := Date.civil_from_days z in
  let y := fst (fst c) in
  let m := snd (fst c) in
  Date.days_from_civil (if (m - 1 <? 6)%Z then (y - 1)%Z else y) 7 1.

(** The day [z] is at most 365 days after the start of its financial
    year. *)
Definition inFinancialYear (z : Z) : bool :=
  let start := fyStartDay z in
  ((start <=? z) && (z <=? start + 365))%Z.

(** [f] holds of the [n] integers from [start] on. *)
Fixpoint allFrom (f : Z -> bool) (start : Z) (n : nat) : bool :=
  match n with
  | O => true
  | S k => f start && allFrom f (start + 1)%Z k
  end.

(** [lo <= x && x <= hi] on numbers. *)
Definition within (lo x hi : num) : bool := (lo <=? x) && (x <=? hi).

(** * Properties *)

(** ** Numbers *)

Lemma leb_Fin (a b : Q) : (Fin a <=? Fin b) = true <-> (a <= b)%Q.
Proof. apply Qle_bool_iff. Qed.

Lemma eqb_Fin (a b : Q) : (Fin a === Fin b) = true <-> (a == b)%Q.
Proof. apply Qeq_bool_iff. Qed.

Lemma finite_inv (x : num) : Num.is_finite x = true -> exists q, x = Fin q.
Proof. destruct x; try discriminate; eauto. Qed.

Lemma div_Fin (a b : Q) : ~ (b == 0)%Q -> Fin a / Fin b = Fin (a / b).
Proof.
  intros Hb. unfold Num.div.
  destruct (Qeq_bool b 0) eqn:E; [|reflexivity].
  apply Qeq_bool_iff in E. contradiction.
Qed.

(** [x || d] is [x] or [d], and never a falsy number when [d] is truthy. *)
Lemma or_else_cases (x d : num) :
  (Num.truthy x = true /\ (x || d) = x) \/ (Num.truthy x = false /\ (x || d) = d).
Proof. unfold Num.or_else. destruct (Num.truthy x); auto. Qed.

Lemma or_else_truthy (x d : num) :
  Num.truthy d = true -> Num.truthy (x || d) = true.
Proof. intros Hd. destruct (or_else_cases x d) as [[H ->]|[_ ->]]; assumption. Qed.


(** ** Tables *)

Lemma taxYear_cases {A : Type} (v24 v25 : A) (year : string) (v : A) :
  lookup [("2024-25", v24); ("2025-26", v25)] year = Some v ->
  (year = "2024-25" /\ v = v24) \/ (year = "2025-26" /\ v = v25).
Proof.
  unfold lookup. cbn [find fst snd].
  destruct (String.eqb_spec "2024-25" year) as [<-|_].
  - intros [= <-]. auto.
  - destruct (String.eqb_spec "2025-26" year) as [<-|_].
    + intros [= <-]. auto.
    + discriminate.
Qed.

(** The two pay-period lookups only ever return one of their constants. *)
Lemma getPayPeriodsPerYear_cases (frequency : string) :
  In (getPayPeriodsPerYear frequency) [Fin 52.18; Fin 26.09; Fin 12; Fin 4].
Proof.
  unfold getPayPeriodsPerYear, lookup. cbn [find fst snd].
  repeat match goal with
         | |- context [String.eqb ?a ?b] => destruct (String.eqb a b)
         end; simpl; auto.
Qed.

Lemma getPayPeriodDays_cases (frequency : string) :
  In (getPayPeriodDays frequency) [Fin 7; Fin 14; Fin 30.44; Fin 91.33].
Proof.
  unfold getPayPeriodDays, lookup. cbn [find fst snd].
  repeat match goal with
         | |- context [String.eqb ?a ?b] => destruct (String.eqb a b)
         end; simpl; auto.
Qed.

Lemma getPayPeriodsPerYear_pos (frequency : string) :
  exists p, getPayPeriodsPerYear frequency = Fin p /\ (0 < p)%Q.
Proof.
  pose proof (getPayPeriodsPerYear_cases frequency) as H. simpl in H.
  destruct H as [<-|[<-|[<-|[<-|[]]]]]; eexists; (split; [reflexivity|reflexivity]).
Qed.

Lemma getPayPeriodDays_pos (frequency : string) :
  exists p, getPayPeriodDays frequency = Fin p /\ (0 < p)%Q.
Proof.
  pose proof (getPayPeriodDays_cases frequency) as H. simpl in H.
  destruct H as [<-|[<-|[<-|[<-|[]]]]]; eexists; (split; [reflexivity|reflexivity]).
Qed.

(** ** The helpers return finite figures on finite incomes *)

Lemma calculateTax_finite (x : Q) (year : string) (t : num) :
  calculateTax (Fin x) year = Ok t -> exists q, t = Fin q.
Proof.
  unfold calculateTax.
  destruct (lookup taxBrackets year) as [brackets|] eqn:E; [|discriminate].
  intros [= <-].
  apply taxYear_cases in E as [[_ ->]|[_ ->]];
    cbn [calculateTax_loop];
    repeat (destruct (inBracket _ _); [eexists; reflexivity|]);
    eexists; reflexivity.
Qed.

Lemma calculateMedicareLevy_finite (x : Q) (year : string) (t : num) :
  calculateMedicareLevy (Fin x) year = Ok t -> exists q, t = Fin q.
Proof.
  unfold calculateMedicareLevy.
  destruct (lookup medicareLevyThresholds year) as [th|] eqn:E; [|discriminate].
  apply taxYear_cases in E as [[-> ->]|[-> ->]];
    cbn [Thresholds.lower Thresholds.upper];
    (destruct (_ <=? _); [intros [= <-]; eexists; reflexivity|]);
    (destruct (_ <=? _); intros [= <-]; eexists; reflexivity).
Qed.

Lemma calculateMedicareLevySurcharge_finite (x : Q) (year : string) (b : bool) (t : num) :
  calculateMedicareLevySurcharge (Fin x) year b = Ok t -> exists q, t = Fin q.
Proof.
  unfold calculateMedicareLevySurcharge.
  destruct b; [intros [= <-]; eexists; reflexivity|].
  destruct (lookup mlsThresholds year) as [ths|] eqn:E; [|discriminate].
  intros [= <-].
  apply taxYear_cases in E as [[_ ->]|[_ ->]];
    cbn [mls_loop];
    repeat (destruct (_ && _); [eexists; reflexivity|]);
    eexists; reflexivity.
Qed.


(** ** Reading the bindings back from a run of [computeLocals] *)

Ltac invert_locals H :=
  unfold computeLocals in H; cbv zeta in H;
  match type of H with
  | context [calculateTax ?x ?y] =>
      let t := fresh "annualTax" in
      let E := fresh "Htax" in
      destruct (calculateTax x y) as [t|] eqn:E; [|discriminate H]
  end;
  cbn [bind] in H;
  match type of H with
  | context [calculateMedicareLevy ?x ?y] =>
      let t := fresh "annualLevy" in
      let E := fresh "Hlevy" in
      destruct (calculateMedicareLevy x y) as [t|] eqn:E; [|discriminate H]
  end;
  cbn [bind] in H;
  match type of H with
  | context [calculateMedicareLevySurcharge ?x ?y ?z] =>
      let t := fresh "annualSurcharge" in
      let E := fresh "Hmls" in
      destruct (calculateMedicareLevySurcharge x y z) as [t|] eqn:E;
      [|discriminate H]
  end;
  cbn [bind] in H;
  injection H as H; subst.

Ltac project_locals :=
  cbn [resultsOf
       CalculationResults.grossPay CalculationResults.taxableIncome
       CalculationResults.tax CalculationResults.medicareLevy
       CalculationResults.medicareLevySurcharge
       CalculationResults.totalMedicareCharges CalculationResults.netIncome
       CalculationResults.superannuation CalculationResults.annualLeaveAccrual
       CalculationResults.hoursWorked CalculationResults.hourlyRate
       CalculationResults.ytd CalculationResults.periodsPerYear
       CalculationResults.payPeriodDays CalculationResults.periodsToDate
       CalculationResults.effectiveAnnualSalary CalculationResults.fte
       Ytd.gross Ytd.tax Ytd.medicareLevy Ytd.medicareLevySurcharge
       Ytd.totalMedicareCharges Ytd.net Ytd.super
       Locals.annualSalary Locals.fullTimeHours Locals.fte
       Locals.periodsPerYear Locals.payPeriodDays
       Locals.effectiveAnnualSalary Locals.grossPay Locals.annualTax
       Locals.taxPerPeriod Locals.annualMedicareLevy
       Locals.annualMedicareLevySurcharge Locals.annualTotalMedicareCharges
       Locals.medicareLevyPerPeriod Locals.medicareLevySurchargePerPeriod
       Locals.totalMedicareChargesPerPeriod Locals.netPay Locals.superRate
       Locals.superannuation Locals.hoursPerPeriod Locals.daysDiff
       Locals.ytdProportion Locals.ytdMaxGross Locals.ytdMaxTax
       Locals.ytdMaxMedicareLevy Locals.ytdMaxMedicareLevySurcharge
       Locals.ytdMaxTotalMedicareCharges Locals.ytdMaxNet Locals.ytdMaxSuper
       Locals.periodsToDate Locals.ytdGross Locals.ytdTax
       Locals.ytdMedicareLevy Locals.ytdMedicareLevySurcharge
       Locals.ytdTotalMedicareCharges Locals.ytdNet Locals.ytdSuper
       Locals.hourlyRate] in *.

(** Arithmetic on finite values, without unfolding the rationals. *)
Ltac fin_arith :=
  repeat first
    [ rewrite div_Fin by (first [assumption | lra])
    | progress cbn [Num.add Num.sub Num.mul Num.neg Num.floor] ].

(** ** Medicare levy surcharge *)

(** C8.  With private health insurance the Medicare levy surcharge is zero
    whatever the income and the tax year: the annual figure returned by
    [calculateMedicareLevySurcharge], and the per-period field of every
    result the component sets. *)
Theorem insured_surcharge_is_zero :
  (forall (taxableIncome : num) (year : string),
      calculateMedicareLevySurcharge taxableIncome year true = Ok (Fin 0))
  /\ (forall (tz : Z) (i : InputState.t) (l : Locals.t),
         InputState.hasPrivateHealthInsurance i = true ->
         computeLocals tz i = Ok l ->
         Locals.annualMedicareLevySurcharge l = Fin 0
         /\ (CalculationResults.medicareLevySurcharge (resultsOf l) === 0) = true).
Proof.
  split; [reflexivity|].
  intros tz i l Hins H.
  invert_locals H. project_locals.
  rewrite Hins in Hmls. injection Hmls as <-.
  split; [reflexivity|].
  destruct (getPayPeriodsPerYear_pos (InputState.payFrequency i)) as (p & -> & Hp).
  assert (~ (p == 0)%Q) by lra.
  fin_arith. apply eqb_Fin. field. assumption.
Qed.

(** ** Net income *)



(** ** Hourly rate *)




(** ** Dates *)

Local Open Scope Z_scope.

Lemma substring_length (n m : nat) (s : string) :
  (String.length (substring n m s) <= m)%nat.
Proof.
  revert n m. induction s as [|c s IH]; intros [|n] [|m]; cbn; try lia.
  - specialize (IH 0%nat m). lia.
  - apply IH.
  - apply IH.
Qed.

Lemma take_digits_bounds (s : string) :
  Forall (fun d => 0 <= d <= 9) (fst (JS.take_digits s))
  /\ (List.length (fst (JS.take_digits s)) <= String.length s)%nat.
Proof.
  induction s as [|c s [IH1 IH2]]; cbn [JS.take_digits].
  - split; [constructor|cbn; lia].
  - destruct (JS.is_digit c) eqn:E.
    + destruct (JS.take_digits s) as [ds rest]. cbn [fst] in *.
      split; [|cbn; lia].
      constructor; [|exact IH1].
      unfold JS.is_digit in E. apply andb_prop in E as [E1 E2].
      apply Z.leb_le in E1, E2. unfold JS.digit_val. lia.
    + split; [constructor|cbn; lia].
Qed.

Lemma digits_value_bound (ds : list Z) (acc : Z) :
  Forall (fun d => 0 <= d <= 9) ds -> 0 <= acc ->
  0 <= fold_left (fun a d => 10 * a + d) ds acc
    <= (acc + 1) * 10 ^ Z.of_nat (List.length ds) - 1.
Proof.
  intros H. revert acc. induction H as [|d ds Hd _ IH]; intros acc Hacc.
  - cbn. lia.
  - cbn [fold_left List.length]. specialize (IH (10 * acc + d) ltac:(lia)).
    rewrite Nat2Z.inj_succ, Z.pow_succ_r by lia.
    assert (0 < 10 ^ Z.of_nat (List.length ds)) by (apply Z.pow_pos_nonneg; lia).
    nia.
Qed.

Lemma number_of_bound (s : string) (k : nat) :
  (String.length s <= k)%nat -> 0 <= Date.number_of s <= 10 ^ Z.of_nat k - 1.
Proof.
  intros Hk. unfold Date.number_of, JS.digits_value.
  destruct (take_digits_bounds s) as [Hd Hl].
  pose proof (digits_value_bound _ 0 Hd ltac:(lia)) as Hb.
  assert (10 ^ Z.of_nat (List.length (fst (JS.take_digits s))) <= 10 ^ Z.of_nat k)
    by (apply Z.pow_le_mono_r; lia).
  lia.
Qed.

Lemma days_from_civil_bound (y m d : Z) :
  -10000 <= y <= 20000 -> 1 <= m <= 12 -> 1 <= d <= 31 ->
  -5000000 <= Date.days_from_civil y m d <= 8000000.
Proof.
  intros Hy Hm Hd. unfold Date.days_from_civil. cbv zeta.
  destruct (m <=? 2), (2 <? m); Z.to_euclidean_division_equations; lia.
Qed.

Lemma civil_from_days_bound (z : Z) :
  -1000000 <= z <= 4000000 ->
  -5000 <= fst (fst (Date.civil_from_days z)) <= 15000.
Proof.
  intros Hz. unfold Date.civil_from_days. cbv zeta. cbn [fst].
  repeat match goal with |- context [if ?c then _ else _] => destruct c end;
    Z.to_euclidean_division_equations; lia.
Qed.

Lemma days_in_month_le (y m : Z) : Date.days_in_month y m <= 31.
Proof.
  unfold Date.days_in_month.
  repeat match goal with |- context [if ?c then _ else _] => destruct c end; lia.
Qed.

(** A parsed date is midnight UTC of a day of the years 0..9999. *)
Lemma parse_shape (s : string) (ms : Z) :
  Date.parse s = Some ms ->
  exists y m d,
    0 <= y <= 9999 /\ 1 <= m <= 12 /\ 1 <= d <= 31
    /\ ms = Date.days_from_civil y m d * Date.msPerDay.
Proof.
  unfold Date.parse. cbv zeta.
  destruct (_ && _ && _ && _ && _ && _); [|discriminate].
  destruct (_ && _ && _ && _) eqn:E; [|discriminate].
  apply andb_prop in E as [E Hd2]. apply andb_prop in E as [E Hd1].
  apply andb_prop in E as [Hm1 Hm2].
  unfold Date.timeClip. destruct (Z.abs _ <=? _); [|discriminate].
  intros [= <-].
  pose proof (number_of_bound (substring 0 4 s) 4 (substring_length _ _ _)).
  pose proof (days_in_month_le (Date.number_of (substring 0 4 s))
                (Date.number_of (substring 5 2 s))).
  do 3 eexists. split; [|split; [|split; [|reflexivity]]]; lia.
Qed.

Lemma days_from_civil_parsed (y m d : Z) :
  0 <= y <= 9999 -> 1 <= m <= 12 -> 1 <= d <= 31 ->
  -900000 <= Date.days_from_civil y m d <= 3900000.
Proof.
  intros Hy Hm Hd. unfold Date.days_from_civil. cbv zeta.
  destruct (m <=? 2), (2 <? m); Z.to_euclidean_division_equations; lia.
Qed.

Lemma truncate_whole (z : Z) : Date.truncate (inject_Z z) = z.
Proof.
  unfold Date.truncate, Qceiling, Qfloor, inject_Z.
  destruct (Qle_bool 0 (z # 1)); cbn [Qopp Qnum Qden];
    rewrite Z.div_1_r; lia.
Qed.

(** The first of July of a year within reach is a valid date. *)
Lemma make_july_defined (tz y : Z) :
  -1440 <= tz <= 1440 -> -5001 <= y <= 15000 ->
  Date.make tz (Fin (inject_Z y)) 6 1 <> None.
Proof.
  intros Htz Hy.
  unfold Date.make. rewrite truncate_whole. cbv zeta.
  change (6 / 12) with 0. change (6 mod 12 + 1) with 7.
  set (yr := if (0 <=? y) && (y <=? 99) then 1900 + y else y).
  assert (-10000 <= yr + 0 <= 20000) by (subst yr; destruct (_ && _); lia).
  pose proof (days_from_civil_bound (yr + 0) 7 1 ltac:(lia) ltac:(lia) ltac:(lia)).
  unfold Date.timeClip, Date.msPerDay, Date.msPerMinute.
  destruct (Z.leb_spec (Z.abs ((Date.days_from_civil (yr + 0) 7 1 + 1 - 1) * 86400000
                               - tz * 60000)) 8640000000000000);
    [discriminate|lia].
Qed.

Local Close Scope Z_scope.

(** The year handed to [new Date(year, 6, 1)] is a whole number. *)
Lemma year_argument (y : Z) (b : bool) :
  exists y', (Fin (inject_Z y) - (if b then 1 else 0)) = Fin (y' # 1)
             /\ (y - 1 <= y' <= y)%Z.
Proof.
  destruct b; cbn [Num.sub Num.add Num.neg]; unfold Qplus, Qopp, inject_Z;
    cbn [Qnum Qden Pos.mul]; eexists; (split; [reflexivity|lia]).
Qed.

(** With a parsed pay date the day count is a finite number, whatever the
    employment start date. *)
Lemma daysDiff_finite (tz : Z) (i : InputState.t) (l : Locals.t) :
  computeLocals tz i = Ok l ->
  (-1440 <= tz <= 1440)%Z ->
  Date.parse (InputState.payDate i) <> None ->
  Num.is_finite (Locals.daysDiff l) = true.
Proof.
  intros H Htz Hpay. invert_locals H. project_locals.
  destruct (Date.parse (InputState.payDate i)) as [ms|] eqn:Ems; [|contradiction].
  destruct (parse_shape _ _ Ems) as (y & m & d & Hy & Hm & Hd & ->).
  pose proof (days_from_civil_parsed y m d Hy Hm Hd) as Hdays.
  set (start := Date.make _ _ _ _).
  assert (Hstart : start <> None).
  { subst start. cbn [Date.getFullYear Date.getMonth].
    match goal with
    | |- Date.make _ (Fin (inject_Z ?yy) - (if ?b then _ else _)) _ _ <> _ =>
        destruct (year_argument yy b) as (y' & -> & Hy');
        pose proof (civil_from_days_bound
                      ((Date.days_from_civil y m d * Date.msPerDay
                        + tz * Date.msPerMinute) / Date.msPerDay)%Z) as Hc
    end.
    apply (make_july_defined tz y' Htz).
    unfold Date.localCivil in Hy'.
    unfold Date.msPerDay, Date.msPerMinute in *.
    assert (-1000000 <= (Date.days_from_civil y m d * 86400000 + tz * 60000)
                         / 86400000 <= 4000000)%Z
      by (Z.to_euclidean_division_equations; lia).
    lia. }
  destruct start as [t0|]; [|contradiction].
  assert (Hfin : forall u : Z,
             Num.is_finite
               (Num.floor ((Date.getTime (Some (Date.days_from_civil y m d * Date.msPerDay)%Z)
                            - Date.getTime (Some u)) / (1000 * 60 * 60 * 24))) = true).
  { intros u. cbn [Date.getTime Num.sub Num.add Num.neg Num.mul].
    rewrite div_Fin by lra. reflexivity. }
  destruct (_ >? _) eqn:Egt.
  - destruct (Date.parse (InputState.employmentStartDate i)) as [e|];
      [apply Hfin|discriminate Egt].
  - apply Hfin.
Qed.

(** ** Year-to-date figures *)



(** ** Medicare levy *)

Lemma calculateMedicareLevy_levyOf (x : num) (year : string) :
  lookup medicareLevyThresholds year <> None ->
  calculateMedicareLevy x year = Ok (levyOf x).
Proof.
  intros Hyear.
  destruct (lookup medicareLevyThresholds year) as [th|] eqn:E; [|contradiction].
  apply taxYear_cases in E as [[-> ->]|[-> ->]];
    unfold calculateMedicareLevy, levyOf;
    cbn -[Num.leb Num.add Num.sub Num.mul Num.div];
    repeat destruct (_ <=? _); reflexivity.
Qed.

Lemma taperQ_factored (x : Q) : (taperQ x == x * (x - 27222) * (2 # 680500))%Q.
Proof. unfold taperQ. field. Qed.

Lemma taper_Fin (x : Q) :
  Fin x * 0.02 * (1 - (34027 - Fin x) / (34027 - 27222)) = Fin (taperQ x).
Proof.
  cbn [Num.sub Num.add Num.neg Num.mul].
  rewrite div_Fin by lra. reflexivity.
Qed.

Lemma taperQ_mono (a b : Q) :
  (27222 <= a)%Q -> (a <= b)%Q -> (taperQ a <= taperQ b)%Q.
Proof.
  intros Ha Hab. rewrite !taperQ_factored.
  assert (0 <= (b - a) * (a + b - 27222))%Q by (apply Qmult_le_0_compat; lra).
  lra.
Qed.

Lemma taperQ_nonneg (a : Q) : (27222 <= a)%Q -> (0 <= taperQ a)%Q.
Proof.
  intros Ha. rewrite taperQ_factored.
  assert (0 <= a * (a - 27222))%Q by (apply Qmult_le_0_compat; lra).
  lra.
Qed.

Lemma taperQ_below_full (a : Q) :
  (27222 <= a)%Q -> (a <= 34027)%Q -> (taperQ a <= a * 0.02)%Q.
Proof.
  intros Ha Hb. rewrite taperQ_factored.
  assert (0 <= a * (34027 - a))%Q by (apply Qmult_le_0_compat; lra).
  lra.
Qed.

Lemma levyOf_Fin (a : Q) :
  levyOf (Fin a) =
  Fin (if Qle_bool a 27222 then 0
       else if Qle_bool a 34027 then taperQ a else a * 0.02).
Proof.
  unfold levyOf. cbn [Num.leb].
  destruct (Qle_bool a 27222); [reflexivity|].
  destruct (Qle_bool a 34027); [apply taper_Fin|reflexivity].
Qed.

Lemma levyOf_Fin_nonneg (a : Q) : (Fin 0 <=? levyOf (Fin a)) = true.
Proof.
  rewrite levyOf_Fin. apply leb_Fin.
  destruct (Qle_bool a 27222) eqn:E1; [lra|].
  assert (~ (a <= 27222)%Q) by (rewrite <- Qle_bool_iff, E1; discriminate).
  destruct (Qle_bool a 34027); [apply taperQ_nonneg|]; lra.
Qed.

Lemma levyOf_mono (x y : num) :
  (x <=? y) = true -> (levyOf x <=? levyOf y) = true.
Proof.
  destruct x as [| | |a], y as [| | |b]; try discriminate; try reflexivity;
    intros Hxy.
  - apply levyOf_Fin_nonneg.
  - rewrite levyOf_Fin. reflexivity.
  - rewrite !levyOf_Fin. apply leb_Fin. apply leb_Fin in Hxy.
    destruct (Qle_bool a 27222) eqn:A1, (Qle_bool a 34027) eqn:A2,
             (Qle_bool b 27222) eqn:B1, (Qle_bool b 34027) eqn:B2;
      repeat match goal with
             | H : Qle_bool _ _ = true |- _ => apply Qle_bool_iff in H
             | H : Qle_bool ?u ?v = false |- _ =>
                 assert (~ (u <= v)%Q)
                   by (rewrite <- Qle_bool_iff, H; discriminate);
                 clear H
             end;
      first [ lra
            | apply taperQ_nonneg; lra
            | apply taperQ_mono; lra
            | pose proof (taperQ_below_full a); lra ].
Qed.

(** C5.  Within a tax year of the tables the Medicare levy is computed for
    every income and is non-decreasing in it, across the lower threshold,
    the tapered band and the full-rate region. *)
Theorem medicare_levy_monotone (year : string) (x y : num) :
  lookup medicareLevyThresholds year <> None ->
  (x <=? y) = true ->
  exists lx ly : num,
    calculateMedicareLevy x year = Ok lx
    /\ calculateMedicareLevy y year = Ok ly
    /\ (lx <=? ly) = true.
Proof.
  intros Hyear Hxy.
  exists (levyOf x), (levyOf y).
  repeat split; try (apply calculateMedicareLevy_levyOf; assumption).
  apply levyOf_mono, Hxy.
Qed.

(** ** Income tax and the bracket tables *)

Lemma ltb_Fin (a b : Q) : (Fin a <? Fin b) = true <-> (a < b)%Q.
Proof.
  cbn [Num.ltb]. rewrite negb_true_iff.
  destruct (Qle_bool b a) eqn:E.
  - apply Qle_bool_iff in E. split; [discriminate|lra].
  - split; [intros _|reflexivity].
    apply Qnot_le_lt. rewrite <- Qle_bool_iff, E. discriminate.
Qed.

Lemma ltb_leb_trans (x y z : num) :
  (x <? y) = true -> (y <=? z) = true -> (x <? z) = true.
Proof.
  destruct x, y, z; try discriminate; try reflexivity.
  rewrite !ltb_Fin, leb_Fin. lra.
Qed.

Lemma ltb_trans (x y z : num) :
  (x <? y) = true -> (y <? z) = true -> (x <? z) = true.
Proof.
  destruct x, y, z; try discriminate; try reflexivity.
  rewrite !ltb_Fin. lra.
Qed.

Lemma leb_ltb_not_geb (x m y : num) :
  (x <=? m) = true -> (m <? y) = true -> (x >=? y) = false.
Proof.
  unfold Num.geb.
  destruct x, m, y; try discriminate; try reflexivity.
  rewrite leb_Fin, ltb_Fin. intros H1 H2.
  apply not_true_is_false. rewrite leb_Fin. lra.
Qed.

(** The loop returns the formula at the first bracket that contains the
    income, and leaves [tax] alone when there is none. *)
Lemma calculateTax_loop_first (income : num) (brackets : list TaxBracket.t) (tax : num) :
  calculateTax_loop income brackets tax =
  match bracketsContaining income brackets with
  | b :: _ => bracketTax income b
  | [] => tax
  end.
Proof.
  induction brackets as [|b rest IH]; [reflexivity|].
  cbn [calculateTax_loop bracketsContaining filter].
  destruct (inBracket income b); [reflexivity|exact IH].
Qed.

Lemma ascending_tail (b : TaxBracket.t) (rest : list TaxBracket.t) :
  ascending (b :: rest) = true -> ascending rest = true.
Proof.
  cbn [ascending]. destruct rest as [|b2 rest]; [reflexivity|].
  intros H. apply andb_prop in H as [_ H]. apply andb_prop in H as [_ H].
  exact H.
Qed.

Lemma ascending_above (b : TaxBracket.t) (rest : list TaxBracket.t) :
  ascending (b :: rest) = true ->
  Forall (fun b' => (TaxBracket.max b <? TaxBracket.min b') = true) rest.
Proof.
  revert b. induction rest as [|b2 rest IH]; intros b H; [constructor|].
  pose proof (ascending_tail _ _ H) as Hrest.
  cbn [ascending] in H.
  apply andb_prop in H as [_ H]. apply andb_prop in H as [Hlt _].
  constructor; [exact Hlt|].
  assert (Hb2 : (TaxBracket.min b2 <=? TaxBracket.max b2) = true).
  { cbn [ascending] in Hrest. apply andb_prop in Hrest as [Hle _]. exact Hle. }
  eapply Forall_impl; [|apply IH, Hrest].
  intros b' Hb'. cbv beta in Hb'.
  eapply ltb_trans; [|exact Hb'].
  eapply ltb_leb_trans; eassumption.
Qed.

Lemma none_above (income m : num) (rest : list TaxBracket.t) :
  (income <=? m) = true ->
  Forall (fun b' => (m <? TaxBracket.min b') = true) rest ->
  bracketsContaining income rest = [].
Proof.
  intros Hmax Habove.
  induction Habove as [|b' rest' Hb' _ IH]; [reflexivity|].
  cbn [bracketsContaining filter]. unfold inBracket at 1.
  rewrite (leb_ltb_not_geb _ _ _ Hmax Hb'). exact IH.
Qed.

(** Ascending brackets do not overlap: no income is in two of them. *)
Lemma ascending_no_overlap (income : num) (brackets : list TaxBracket.t) :
  ascending brackets = true ->
  (List.length (bracketsContaining income brackets) <= 1)%nat.
Proof.
  induction brackets as [|b rest IH]; intros Hasc; [cbn; lia|].
  cbn [bracketsContaining filter].
  destruct (inBracket income b) eqn:Hin.
  - unfold inBracket in Hin. apply andb_prop in Hin as [_ Hmax].
    pose proof (none_above _ _ _ Hmax (ascending_above _ _ Hasc)) as Hnone.
    unfold bracketsContaining in Hnone. rewrite Hnone. cbn. lia.
  - apply IH. eapply ascending_tail, Hasc.
Qed.

(** The bracket test on whole-dollar incomes and bounds. *)
Lemma inBracket_whole (n lo hi : Z) (r o : num) :
  inBracket (Fin (inject_Z n)) (TaxBracket.mk (Fin (lo # 1)) (Fin (hi # 1)) r o)
  = ((lo <=? n)%Z && (n <=? hi)%Z)%bool.
Proof.
  unfold inBracket, Num.geb, Num.leb, Qle_bool, inject_Z.
  cbn [TaxBracket.min TaxBracket.max Qnum Qden].
  rewrite !Z.mul_1_r. reflexivity.
Qed.

Lemma inBracket_whole_top (n lo : Z) (r o : num) :
  inBracket (Fin (inject_Z n)) (TaxBracket.mk (Fin (lo # 1)) PInf r o)
  = (lo <=? n)%Z.
Proof.
  unfold inBracket, Num.geb, Num.leb, Qle_bool, inject_Z.
  cbn [TaxBracket.min TaxBracket.max Qnum Qden].
  rewrite !Z.mul_1_r. apply andb_true_r.
Qed.

(** Every whole-dollar income from zero up is in exactly one bracket. *)
Lemma whole_dollar_coverage (year : string) (brackets : list TaxBracket.t) (n : Z) :
  lookup taxBrackets year = Some brackets ->
  (0 <= n)%Z ->
  exists b, bracketsContaining (Fin (inject_Z n)) brackets = [b].
Proof.
  intros E Hn.
  apply taxYear_cases in E as [[_ ->]|[_ ->]];
    unfold bracketsContaining; cbn [filter];
    rewrite !inBracket_whole, !inBracket_whole_top;
    repeat match goal with
           | |- context [(?a <=? ?b)%Z] =>
               destruct (Z.leb_spec a b); try lia
           end;
    cbn [andb]; eexists; reflexivity.
Qed.

Lemma tables_well_formed (year : string) (brackets : list TaxBracket.t) :
  lookup taxBrackets year = Some brackets ->
  ascending brackets = true /\ dollarContiguous brackets = true
  /\ startsAtZero brackets = true /\ lastUnbounded brackets = true.
Proof.
  intros E.
  apply taxYear_cases in E as [[_ ->]|[_ ->]]; repeat split; reflexivity.
Qed.

(** C4, as the code has it.  For each tax year of the table: the brackets
    are sorted ascending and do not overlap (no income is in two of them),
    the first starts at 0, each one starts one dollar above the end of its
    predecessor, and the last is unbounded; every whole-dollar income from 0
    up lies in exactly one bracket; and for an income that lies in a bracket
    the annual tax is offset + (income - min + 1) x rate of that bracket. *)
Theorem tax_brackets_whole_dollar (year : string) (brackets : list TaxBracket.t) :
  lookup taxBrackets year = Some brackets ->
  (ascending brackets = true
   /\ dollarContiguous brackets = true
   /\ startsAtZero brackets = true
   /\ lastUnbounded brackets = true)
  /\ (forall income : num,
         (List.length (bracketsContaining income brackets) <= 1)%nat)
  /\ (forall n : Z, (0 <= n)%Z ->
         exists b, bracketsContaining (Fin (inject_Z n)) brackets = [b])
  /\ (forall (income : num) (b : TaxBracket.t),
         In b brackets -> inBracket income b = true ->
         calculateTax income year
         = Ok (TaxBracket.offset b
               + (income - TaxBracket.min b + 1) * TaxBracket.rate b)).
Proof.
  intros E.
  pose proof (tables_well_formed _ _ E) as Hwf.
  split; [exact Hwf|]. destruct Hwf as (Hasc & _).
  split; [intros income; apply ascending_no_overlap, Hasc|].
  split; [intros n Hn; eapply whole_dollar_coverage; eassumption|].
  intros income b Hb Hin.
  unfold calculateTax. rewrite E. f_equal.
  rewrite calculateTax_loop_first.
  assert (Hmem : In b (bracketsContaining income brackets))
    by (apply filter_In; split; assumption).
  pose proof (ascending_no_overlap income brackets Hasc) as Hlen.
  destruct (bracketsContaining income brackets) as [|b1 [|b2 rest]].
  - destruct Hmem.
  - destruct Hmem as [->|[]]. reflexivity.
  - cbn in Hlen. lia.
Qed.

(** The gap between two brackets: 18200.5 is a non-negative income, the
    effective salary of a half-time worker on 36401, and no bracket of the
    2025-26 table contains it; [calculateTax] returns 0 for it. *)
Lemma tax_brackets_gap :
  exists brackets,
    lookup taxBrackets "2025-26" = Some brackets
    /\ (Fin 18200.5 >=? 0) = true
    /\ bracketsContaining 18200.5 brackets = []
    /\ calculateTax 18200.5 "2025-26" = Ok (Fin 0)
    /\ exists l,
         computeLocals 600
           (InputState.mk "fortnightly" "2025-08-15" "2025-08-14" "36401"
              "2020-01-01" "2025-26" "38" "0.5" false) = Ok l
         /\ (Locals.effectiveAnnualSalary l === 18200.5) = true
         /\ Locals.annualTax l = Fin 0.
Proof.
  eexists. split; [reflexivity|].
  repeat split.
  eexists. split; [vm_compute; reflexivity|]. split; reflexivity.
Qed.

(** ** Results are produced for every table year *)

Lemma computeLocals_defined (tz : Z) (i : InputState.t) :
  lookup taxBrackets (InputState.taxYear i) <> None ->
  exists l, computeLocals tz i = Ok l.
Proof.
  intros Hyear.
  unfold computeLocals. cbv zeta.
  unfold calculateTax, calculateMedicareLevy, calculateMedicareLevySurcharge.
  destruct (lookup taxBrackets (InputState.taxYear i)) as [brackets|] eqn:E;
    [|contradiction].
  apply taxYear_cases in E as [[-> _]|[-> _]];
    match goal with
    | |- context [lookup medicareLevyThresholds ?y] =>
        change (lookup medicareLevyThresholds y)
          with (Some (Thresholds.mk 27222 34027))
    end;
    match goal with
    | |- context [lookup mlsThresholds ?y] =>
        let v := eval cbv in (lookup mlsThresholds y) in
        change (lookup mlsThresholds y) with v
    end;
    cbn [bind];
    destruct (_ <=? Thresholds.lower _); cbn [bind];
    try destruct (_ <=? Thresholds.upper _); cbn [bind];
    destruct (InputState.hasPrivateHealthInsurance i); cbn [bind];
    eexists; reflexivity.
Qed.

(** What [calculateResults] does to the state once the guard is passed. *)
Lemma calculateResults_sets (tz : Z) (st st' : Component) :
  incomplete (inputs st) = false ->
  calculateResults tz st = Ok st' ->
  exists l, computeLocals tz (inputs st) = Ok l
            /\ st' = setResults st (resultsOf l).
Proof.
  unfold calculateResults. intros ->.
  destruct (computeLocals tz (inputs st)) as [l|]; [|discriminate].
  cbn [bind]. intros [= <-]. eauto.
Qed.

(** With a tax year of the tables [calculateResults] raises nothing. *)
Lemma calculateResults_total (tz : Z) (st : Component) :
  lookup taxBrackets (InputState.taxYear (inputs st)) <> None ->
  exists st', calculateResults tz st = Ok st'.
Proof.
  intros Hyear. unfold calculateResults.
  destruct (incomplete (inputs st)); [eauto|].
  destruct (computeLocals_defined tz (inputs st) Hyear) as [l ->].
  cbn [bind]. eauto.
Qed.

(** ** The fortnightly 90000 scenario *)

(** The tax per period of the scenario is 17788 / 26.09 = 681.79..., which
    is seven cents away from 681.72. *)
Lemma scenario_tax_is_not_681_72 :
  exists l,
    computeLocals 600 scenario = Ok l
    /\ (CalculationResults.tax (resultsOf l) === Fin 17788 / Fin 26.09) = true
    /\ closeTo (CalculationResults.tax (resultsOf l)) 681.72 0.01 = false
    /\ (Fin 681.79 <=? CalculationResults.tax (resultsOf l)) = true.
Proof.
  eexists. split; [vm_compute; reflexivity|]. repeat split.
Qed.

(** C7, as the code has it.  For annualSalary 90000, fte 1.0, fullTimeHours
    38, fortnightly pay, tax year 2025-26 and private health insurance,
    whatever the dates: the income lies in the bracket 45001-135000 (rate
    0.30, offset 4288) only, the annual tax is 4288 + (90000 - 45001 + 1) x
    0.30 = 17788, gross pay is 90000 / 26.09 (3449.59 to the cent below),
    tax per period is 17788 / 26.09 (681.79 to the nearest cent) and the
    Medicare levy surcharge is 0. *)
Theorem scenario_fortnightly_90000
    (tz : Z) (payDate periodEndDate employmentStartDate : string) :
  exists (l : Locals.t) (brackets : list TaxBracket.t),
    computeLocals tz (scenarioInputs payDate periodEndDate employmentStartDate)
    = Ok l
    /\ lookup taxBrackets "2025-26" = Some brackets
    /\ bracketsContaining (Locals.effectiveAnnualSalary l) brackets
       = [TaxBracket.mk 45001 135000 0.30 4288]
    /\ (Locals.annualTax l === 4288 + (90000 - 45001 + 1) * 0.30) = true
    /\ (Locals.annualTax l === 17788) = true
    /\ (CalculationResults.grossPay (resultsOf l) === Fin 90000 / Fin 26.09) = true
    /\ closeTo (CalculationResults.grossPay (resultsOf l)) 3449.59 0.01 = true
    /\ (CalculationResults.tax (resultsOf l) === Fin 17788 / Fin 26.09) = true
    /\ closeTo (CalculationResults.tax (resultsOf l)) 681.79 0.01 = true
    /\ Locals.annualMedicareLevySurcharge l = Fin 0
    /\ (CalculationResults.medicareLevySurcharge (resultsOf l) === 0) = true.
Proof.
  destruct (computeLocals_defined tz
              (scenarioInputs payDate periodEndDate employmentStartDate))
    as [l H]; [discriminate|].
  exists l. eexists. split; [exact H|]. split; [reflexivity|].
  invert_locals H. project_locals.
  vm_compute in Htax. injection Htax as <-.
  vm_compute in Hmls. injection Hmls as <-.
  repeat split.
Qed.

(** ** Incomplete and malformed input *)

(** C2, as the code has it.  When any of annualSalary, payDate,
    periodEndDate and employmentStartDate is missing (the empty string),
    [calculateResults] raises nothing and leaves the state, and so the
    previous result or null, as it was. *)
Theorem missing_field_keeps_results (tz : Z) (st : Component) :
  InputState.annualSalary (inputs st) = ""
  \/ InputState.payDate (inputs st) = ""
  \/ InputState.periodEndDate (inputs st) = ""
  \/ InputState.employmentStartDate (inputs st) = "" ->
  calculateResults tz st = Ok st.
Proof.
  intros H. unfold calculateResults, incomplete.
  destruct H as [ -> | [ -> | [ -> | -> ] ] ]; cbn [JS.not_string];
    rewrite ?orb_true_r; reflexivity.
Qed.

Lemma missing_field_keeps_results_witness :
  (InputState.annualSalary (inputs initialState) = ""
   \/ InputState.payDate (inputs initialState) = ""
   \/ InputState.periodEndDate (inputs initialState) = ""
   \/ InputState.employmentStartDate (inputs initialState) = "")
  /\ calculateResults 600 initialState = Ok initialState.
Proof.
  assert (H : InputState.annualSalary (inputs initialState) = ""
              \/ InputState.payDate (inputs initialState) = ""
              \/ InputState.periodEndDate (inputs initialState) = ""
              \/ InputState.employmentStartDate (inputs initialState) = "")
    by (left; reflexivity).
  split; [exact H|].
  exact (missing_field_keeps_results 600 initialState H).
Defined.

(** A salary that is present but does not parse ("abc"), and likewise a pay
    date that does not parse ("soon"), passes the guard: the previous
    result, here null, is replaced by a new one. *)
Lemma unparseable_field_replaces_results :
  let withSalary :=
    InputState.mk "fortnightly" "2025-08-15" "2025-08-14" "abc" "2020-01-01"
      "2025-26" "38" "1.0" false in
  let withPayDate :=
    InputState.mk "fortnightly" "soon" "2025-08-14" "90000" "2020-01-01"
      "2025-26" "38" "1.0" false in
  JS.parseFloat (InputState.annualSalary withSalary) = NaN
  /\ (exists r, calculateResults 600 (mkComponent withSalary None)
                = Ok (mkComponent withSalary (Some r)))
  /\ Date.parse (InputState.payDate withPayDate) = None
  /\ (exists r, calculateResults 600 (mkComponent withPayDate None)
                = Ok (mkComponent withPayDate (Some r))).
Proof.
  cbv zeta. split; [reflexivity|]. split; [|split; [reflexivity|]].
  - eexists. vm_compute. reflexivity.
  - eexists. vm_compute. reflexivity.
Qed.

(** C3, as the code has it.  An unparseable fullTimeHours falls back to 38
    and an unparseable fte to 1.0, so neither is ever NaN in the computation
    or in the result; annualSalary has no default and enters the computation
    as parsed. *)
Theorem malformed_hours_and_fte_default (tz : Z) (i : InputState.t) (l : Locals.t) :
  computeLocals tz i = Ok l ->
  (JS.parseFloat (InputState.fullTimeHours i) = NaN ->
   Locals.fullTimeHours l = Fin 38)
  /\ (JS.parseFloat (InputState.fte i) = NaN ->
      Locals.fte l = Fin 1.0 /\ CalculationResults.fte (resultsOf l) = Fin 1.0)
  /\ Num.is_nan (Locals.fullTimeHours l) = false
  /\ Num.is_nan (Locals.fte l) = false
  /\ Num.is_nan (CalculationResults.fte (resultsOf l)) = false
  /\ Locals.annualSalary l = JS.parseFloat (InputState.annualSalary i).
Proof.
  intros H. invert_locals H. project_locals.
  assert (Hnan : forall x d, Num.truthy d = true -> Num.is_nan (x || d) = false).
  { intros x d Hd. pose proof (or_else_truthy x d Hd) as Ht.
    destruct (x || d); [discriminate Ht|reflexivity..]. }
  repeat split.
  - intros ->. reflexivity.
  - rewrite H. reflexivity.
  - rewrite H. reflexivity.
  - apply Hnan. reflexivity.
  - apply Hnan. reflexivity.
  - apply Hnan. reflexivity.
Qed.

Lemma malformed_hours_and_fte_default_witness :
  exists l,
    computeLocals 600
      (InputState.mk "fortnightly" "2025-08-15" "2025-08-14" "90000"
         "2020-01-01" "2025-26" "full" "half" false) = Ok l
    /\ JS.parseFloat "full" = NaN
    /\ JS.parseFloat "half" = NaN
    /\ Locals.fullTimeHours l = Fin 38
    /\ Locals.fte l = Fin 1.0
    /\ Num.is_nan (CalculationResults.fte (resultsOf l)) = false.
Proof.
  eexists. split; [vm_compute; reflexivity|].
  split; [reflexivity|]. split; [reflexivity|].
  match goal with
  | |- Locals.fullTimeHours ?l = _ /\ _ =>
      pose proof (malformed_hours_and_fte_default 600
                    (InputState.mk "fortnightly" "2025-08-15" "2025-08-14"
                       "90000" "2020-01-01" "2025-26" "full" "half" false)
                    l eq_refl) as (Hh & Hf & _ & _ & Hr & _)
  end.
  split; [exact (Hh eq_refl)|].
  split; [exact (proj1 (Hf eq_refl))|exact Hr].
Defined.

(** A salary that is present but malformed ("$90000") is not replaced by
    zero or by a default: NaN reaches the result. *)
Lemma malformed_salary_reaches_results :
  exists r,
    calculateResults 600
      (mkComponent
         (InputState.mk "fortnightly" "2025-08-15" "2025-08-14" "$90000"
            "2020-01-01" "2025-26" "38" "1.0" false) None)
    = Ok (mkComponent
            (InputState.mk "fortnightly" "2025-08-15" "2025-08-14" "$90000"
               "2020-01-01" "2025-26" "38" "1.0" false) (Some r))
    /\ CalculationResults.effectiveAnnualSalary r = NaN
    /\ CalculationResults.grossPay r = NaN
    /\ CalculationResults.netIncome r = NaN
    /\ Ytd.gross (CalculationResults.ytd r) = NaN.
Proof.
  eexists. split; [vm_compute; reflexivity|]. repeat split.
Qed.

(** ** An FTE of zero *)

(** C1 at [fte = "0"]: the string parses to 0, which [||] replaces by the
    default 1.0, so the effective salary is the full 90000 and the hours of
    the fortnight are the full 76. *)
Lemma fte_zero_takes_default :
  exists l,
    computeLocals 600 (withFte scenario "0") = Ok l
    /\ JS.parseFloat (InputState.fte (withFte scenario "0")) = Fin 0
    /\ Locals.fte l = Fin 1.0
    /\ (CalculationResults.effectiveAnnualSalary (resultsOf l) === 90000) = true
    /\ (CalculationResults.hoursWorked (resultsOf l) === 76) = true
    /\ (CalculationResults.effectiveAnnualSalary (resultsOf l) === 0) = false
    /\ (CalculationResults.hoursWorked (resultsOf l) === 0) = false.
Proof.
  eexists. split; [vm_compute; reflexivity|]. repeat split.
Qed.

(** ** The theorems at concrete inputs *)

Lemma tax_brackets_whole_dollar_witness :
  exists brackets,
    lookup taxBrackets "2025-26" = Some brackets
    /\ ascending brackets = true
    /\ (List.length (bracketsContaining (Fin 18200.5%Q) brackets) <= 1)%nat
    /\ (exists b, bracketsContaining (Fin (inject_Z 90000)) brackets = [b])
    /\ calculateTax 90000 "2025-26" = Ok (4288 + (90000 - 45001 + 1) * 0.30).
Proof.
  eexists. split; [reflexivity|].
  destruct (tax_brackets_whole_dollar "2025-26" _ eq_refl)
    as ((Hasc & _) & Hone & Hcover & Htax).
  split; [exact Hasc|]. split; [apply Hone|]. split; [apply Hcover; lia|].
  apply (Htax 90000 (TaxBracket.mk 45001 135000 0.30 4288)).
  - cbn. auto.
  - reflexivity.
Defined.

Lemma medicare_levy_monotone_witness :
  lookup medicareLevyThresholds "2025-26" <> None
  /\ (Fin 30000 <=? Fin 40000) = true
  /\ exists lx ly : num,
       calculateMedicareLevy 30000 "2025-26" = Ok lx
       /\ calculateMedicareLevy 40000 "2025-26" = Ok ly
       /\ (lx <=? ly) = true.
Proof.
  assert (Hyear : lookup medicareLevyThresholds "2025-26" <> None)
    by discriminate.
  assert (Hxy : (Fin 30000 <=? Fin 40000) = true) by reflexivity.
  split; [exact Hyear|]. split; [exact Hxy|].
  exact (medicare_levy_monotone "2025-26" 30000 40000 Hyear Hxy).
Defined.


Lemma insured_surcharge_is_zero_witness :
  calculateMedicareLevySurcharge 250000 "2025-26" true = Ok (Fin 0)
  /\ exists l,
       InputState.hasPrivateHealthInsurance scenario = true
       /\ computeLocals 600 scenario = Ok l
       /\ Locals.annualMedicareLevySurcharge l = Fin 0
       /\ (CalculationResults.medicareLevySurcharge (resultsOf l) === 0) = true.
Proof.
  destruct insured_surcharge_is_zero as [Hannual Hperiod].
  split; [apply Hannual|].
  eexists. split; [reflexivity|]. split; [vm_compute; reflexivity|].
  exact (Hperiod 600%Z scenario _ eq_refl eq_refl).
Defined.



(** * Further properties of the helpers and of [calculateResults] *)

(** ** Income tax *)

Lemma inBracket_Fin (x lo hi : Q) (r o : num) :
  inBracket (Fin x) (TaxBracket.mk (Fin lo) (Fin hi) r o)
  = (Qle_bool lo x && Qle_bool x hi)%bool.
Proof. reflexivity. Qed.

Lemma inBracket_Fin_top (x lo : Q) (r o : num) :
  inBracket (Fin x) (TaxBracket.mk (Fin lo) PInf r o) = Qle_bool lo x.
Proof. unfold inBracket. cbn. apply andb_true_r. Qed.

Lemma Qle_bool_false (a b : Q) : Qle_bool a b = false -> (b < a)%Q.
Proof.
  intros E. apply Qnot_le_lt. rewrite <- Qle_bool_iff, E. discriminate.
Qed.

(** Turns the boolean comparisons of rationals among the hypotheses into
    propositions. *)
Ltac reflect_Q :=
  repeat match goal with
         | H : (_ && _)%bool = true |- _ => apply andb_prop in H as [? ?]
         | H : Qle_bool _ _ = true |- _ => apply Qle_bool_iff in H
         | H : Qle_bool _ _ = false |- _ => apply Qle_bool_false in H
         | H : (Fin _ <=? Fin _) = true |- _ => apply leb_Fin in H
         | H : (Fin _ <? Fin _) = true |- _ => apply ltb_Fin in H
         | H : negb _ = false |- _ => apply negb_false_iff in H
         | H : negb _ = true |- _ => apply negb_true_iff in H
         end.

Lemma taxYear_known {A : Type} (v24 v25 : A) (year : string) :
  lookup [("2024-25", v24); ("2025-26", v25)] year <> None ->
  (year = "2024-25" /\ lookup [("2024-25", v24); ("2025-26", v25)] year = Some v24)
  \/ (year = "2025-26" /\ lookup [("2024-25", v24); ("2025-26", v25)] year = Some v25).
Proof.
  intros H.
  destruct (lookup _ year) as [v|] eqn:E; [|contradiction].
  destruct (taxYear_cases _ _ _ _ E) as [[-> ->]|[-> ->]]; auto.
Qed.

(** An income that lies in a bracket is taxed by the formula of a bracket of
    the table that contains it. *)
Lemma tax_of_bracketed (income : num) (year : string) (brackets : list TaxBracket.t) :
  lookup taxBrackets year = Some brackets ->
  bracketsContaining income brackets <> [] ->
  exists b, In b brackets /\ inBracket income b = true
            /\ calculateTax income year = Ok (bracketTax income b).
Proof.
  intros E Hne. unfold calculateTax. rewrite E, calculateTax_loop_first.
  destruct (bracketsContaining income brackets) as [|b rest] eqn:Eb;
    [contradiction|].
  assert (Hin : In b (bracketsContaining income brackets))
    by (rewrite Eb; left; reflexivity).
  apply filter_In in Hin as [Hin Hb]. eauto.
Qed.

(** An income that lies in no bracket is not taxed at all. *)
Lemma tax_of_unbracketed (income : num) (year : string) (brackets : list TaxBracket.t) :
  lookup taxBrackets year = Some brackets ->
  bracketsContaining income brackets = [] ->
  calculateTax income year = Ok (Fin 0).
Proof.
  intros E Hnone. unfold calculateTax.
  rewrite E, calculateTax_loop_first, Hnone. reflexivity.
Qed.

Ltac in_table H :=
  cbn [In] in H;
  repeat match type of H with
         | _ \/ _ => destruct H as [H|H]
         | False => destruct H
         end;
  try subst.

(** X1.  In both tax years an income that is not above 18200 - negative
    incomes and NaN included - is not taxed. *)
Theorem no_tax_up_to_18200 (year : string) (income : num) :
  lookup taxBrackets year <> None ->
  (Fin 18200 <? income) = false ->
  exists tax, calculateTax income year = Ok tax /\ (tax === 0) = true.
Proof.
  intros Hyear Hle.
  destruct (lookup taxBrackets year) as [brackets|] eqn:E; [|contradiction].
  destruct (bracketsContaining income brackets) as [|b0 rest0] eqn:Eb.
  - exists (Fin 0). split; [|reflexivity].
    eapply tax_of_unbracketed; eassumption.
  - destruct (tax_of_bracketed income year brackets E) as (b & Hb & Hin & ->);
      [rewrite Eb; discriminate|].
    eexists. split; [reflexivity|].
    apply taxYear_cases in E as [[_ ->]|[_ ->]]; in_table Hb;
      destruct income as [| | |x]; try discriminate;
      unfold inBracket in Hin; cbn in Hin; cbn [Num.ltb] in Hle;
      reflect_Q; try lra;
      unfold bracketTax; cbn [TaxBracket.min TaxBracket.rate TaxBracket.offset];
      fin_arith; apply eqb_Fin; ring.
Qed.

(** On a table of the component the loop of [calculateTax] returns between
    nothing and 45 percent of a finite non-negative income. *)
Lemma calculateTax_loop_range (brackets : list TaxBracket.t) (income : Q) :
  In brackets (map snd taxBrackets) ->
  (0 <= income)%Q ->
  exists t, calculateTax_loop (Fin income) brackets 0 = Fin t
            /\ (0 <= t)%Q /\ (t <= 0.45 * income)%Q.
Proof.
  intros Htable Hpos. rewrite calculateTax_loop_first.
  destruct (bracketsContaining (Fin income) brackets) as [|b rest] eqn:Eb.
  - exists 0%Q. split; [reflexivity|]. lra.
  - assert (Hin : In b (bracketsContaining (Fin income) brackets))
      by (rewrite Eb; left; reflexivity).
    apply filter_In in Hin as [Hb Hin].
    cbn [map snd taxBrackets In] in Htable.
    destruct Htable as [<-|[<-|[]]]; in_table Hb;
      unfold inBracket in Hin; cbn in Hin; reflect_Q;
      unfold bracketTax; cbn [TaxBracket.min TaxBracket.rate TaxBracket.offset];
      fin_arith; eexists; (split; [reflexivity|]); lra.
Qed.

Lemma taxBrackets_table (year : string) (brackets : list TaxBracket.t) :
  lookup taxBrackets year = Some brackets -> In brackets (map snd taxBrackets).
Proof.
  intros E. apply taxYear_cases in E as [[_ ->]|[_ ->]]; cbn; auto.
Qed.

(** X2.  The tax on a finite non-negative income is never negative and
    never more than 45 percent of the income. *)
Theorem tax_at_most_45_percent (year : string) (income : Q) (tax : num) :
  calculateTax (Fin income) year = Ok tax ->
  (0 <= income)%Q ->
  exists t, tax = Fin t /\ (0 <= t)%Q /\ (t <= 0.45 * income)%Q.
Proof.
  intros H Hpos. unfold calculateTax in H.
  destruct (lookup taxBrackets year) as [brackets|] eqn:E; [|discriminate].
  injection H as <-.
  destruct (calculateTax_loop_range brackets income) as (t & -> & Ht);
    [eapply taxBrackets_table; eassumption|assumption|].
  exists t. split; [reflexivity|exact Ht].
Qed.

Lemma tax_monotone_bracketed (year : string) (brackets : list TaxBracket.t) (x y : num) :
  lookup taxBrackets year = Some brackets ->
  (x <=? y) = true ->
  bracketsContaining x brackets <> [] ->
  bracketsContaining y brackets <> [] ->
  exists tx ty, calculateTax x year = Ok tx /\ calculateTax y year = Ok ty
                /\ (tx <=? ty) = true.
Proof.
  intros E Hxy Hx Hy.
  destruct (tax_of_bracketed x year brackets E Hx) as (bx & Hbx & Hinx & ->).
  destruct (tax_of_bracketed y year brackets E Hy) as (b_y & Hby & Hiny & ->).
  do 2 eexists. split; [reflexivity|]. split; [reflexivity|].
  apply taxYear_cases in E as [[_ ->]|[_ ->]]; in_table Hbx; in_table Hby;
    destruct x as [| | |a], y as [| | |b]; try discriminate; try reflexivity;
    unfold inBracket in Hinx, Hiny; cbn in Hinx, Hiny; cbn [Num.leb] in Hxy;
    reflect_Q; try lra;
    unfold bracketTax; cbn [TaxBracket.min TaxBracket.rate TaxBracket.offset];
    fin_arith; apply leb_Fin; lra.
Qed.

(** X3.  On whole-dollar incomes from zero up the tax of a year is
    non-decreasing in the income. *)
Theorem tax_monotone_on_whole_dollars (year : string) (m n : Z) :
  lookup taxBrackets year <> None ->
  (0 <= m)%Z -> (m <= n)%Z ->
  exists tm tn,
    calculateTax (Fin (inject_Z m)) year = Ok tm
    /\ calculateTax (Fin (inject_Z n)) year = Ok tn
    /\ (tm <=? tn) = true.
Proof.
  intros Hyear Hm Hmn.
  destruct (lookup taxBrackets year) as [brackets|] eqn:E; [|contradiction].
  destruct (whole_dollar_coverage year brackets m E Hm) as [bm Ebm].
  destruct (whole_dollar_coverage year brackets n E ltac:(lia)) as [bn Ebn].
  apply (tax_monotone_bracketed year brackets); try assumption.
  - apply leb_Fin. rewrite <- Zle_Qle. exact Hmn.
  - rewrite Ebm. discriminate.
  - rewrite Ebn. discriminate.
Qed.

(** ** Medicare levy and surcharge *)

(** X4.  On a finite income the Medicare levy is never negative, is zero up
    to 27222, is exactly 2 percent of the income from 34027 on, and in
    between stays below 2 percent of the income. *)
Theorem medicare_levy_bounds (year : string) (income : Q) (levy : num) :
  calculateMedicareLevy (Fin income) year = Ok levy ->
  exists v, levy = Fin v
            /\ (0 <= v)%Q
            /\ ((income <= 27222)%Q -> (v == 0)%Q)
            /\ ((27222 <= income)%Q -> (v <= 0.02 * income)%Q)
            /\ ((34027 <= income)%Q -> (v == 0.02 * income)%Q).
Proof.
  intros H.
  assert (Hyear : lookup medicareLevyThresholds year <> None).
  { intros E. unfold calculateMedicareLevy in H. rewrite E in H. discriminate. }
  rewrite (calculateMedicareLevy_levyOf _ _ Hyear), levyOf_Fin in H.
  injection H as <-. eexists. split; [reflexivity|].
  destruct (Qle_bool income 27222) eqn:E1; [|destruct (Qle_bool income 34027) eqn:E2];
    reflect_Q.
  - repeat split; intros; lra.
  - pose proof (taperQ_nonneg income ltac:(lra)).
    pose proof (taperQ_below_full income ltac:(lra) ltac:(lra)).
    repeat split; intros; try lra.
    assert (E : (income == 34027)%Q) by lra.
    rewrite taperQ_factored in *. rewrite E. reflexivity.
  - repeat split; intros; lra.
Qed.

(** X5.  Without private health insurance the surcharge on a finite income
    is a flat share of the whole income: never negative, never more than
    1.5 percent of a non-negative income, and zero for every income up to
    the ceiling of the first bracket of the year's table. *)
Theorem surcharge_bounds (year : string) (income : Q) (surcharge : num)
        (first : MlsThreshold.t) (rest : list MlsThreshold.t) :
  lookup mlsThresholds year = Some (first :: rest) ->
  calculateMedicareLevySurcharge (Fin income) year false = Ok surcharge ->
  exists v, surcharge = Fin v
            /\ (0 <= v)%Q
            /\ ((0 <= income)%Q -> (v <= 0.015 * income)%Q)
            /\ ((Fin income <=? MlsThreshold.max first) = true -> (v == 0)%Q).
Proof.
  intros E H. unfold calculateMedicareLevySurcharge in H. rewrite E in H.
  injection H as <-.
  apply taxYear_cases in E as [[_ E]|[_ E]]; injection E as -> ->;
    cbn [mls_loop MlsThreshold.min MlsThreshold.max MlsThreshold.rate
         Num.geb Num.leb andb];
    rewrite ?andb_true_r;
    repeat match goal with
           | |- context [(Qle_bool ?a ?b && Qle_bool ?c ?d)%bool] =>
               destruct (Qle_bool a b) eqn:?, (Qle_bool c d) eqn:?; cbn [andb]
           | |- context [if Qle_bool ?a ?b then _ else _] =>
               destruct (Qle_bool a b) eqn:?
           end;
    reflect_Q; fin_arith; eexists; (split; [reflexivity|]);
    (repeat split; intros; reflect_Q; try lra).
Qed.

Lemma levyOf_range (income : Q) :
  exists v, levyOf (Fin income) = Fin v
            /\ (0 <= v)%Q /\ ((0 <= income)%Q -> (v <= 0.02 * income)%Q).
Proof.
  rewrite levyOf_Fin. eexists. split; [reflexivity|].
  destruct (Qle_bool income 27222) eqn:E1; [|destruct (Qle_bool income 34027) eqn:E2];
    reflect_Q.
  - split; intros; lra.
  - pose proof (taperQ_nonneg income ltac:(lra)).
    pose proof (taperQ_below_full income ltac:(lra) ltac:(lra)).
    split; intros; lra.
  - split; intros; lra.
Qed.

Lemma mls_loop_range (thresholds : list MlsThreshold.t) (income : Q) :
  In thresholds (map snd mlsThresholds) ->
  exists v, mls_loop (Fin income) thresholds = Fin v
            /\ (0 <= v)%Q /\ ((0 <= income)%Q -> (v <= 0.015 * income)%Q).
Proof.
  intros Htable. cbn [map snd mlsThresholds In] in Htable.
  destruct Htable as [<-|[<-|[]]];
    cbn [mls_loop MlsThreshold.min MlsThreshold.max MlsThreshold.rate
         Num.geb Num.leb andb];
    rewrite ?andb_true_r;
    repeat match goal with
           | |- context [(Qle_bool ?a ?b && Qle_bool ?c ?d)%bool] =>
               destruct (Qle_bool a b) eqn:?, (Qle_bool c d) eqn:?; cbn [andb]
           | |- context [if Qle_bool ?a ?b then _ else _] =>
               destruct (Qle_bool a b) eqn:?
           end;
    reflect_Q; fin_arith; eexists; (split; [reflexivity|]);
    (split; intros; lra).
Qed.

(** ** The figures of a pay period *)

(** The bindings of a run on a finite salary and FTE, in closed form. *)
Lemma locals_period (tz : Z) (i : InputState.t) (l : Locals.t) :
  computeLocals tz i = Ok l ->
  Num.is_finite (Locals.annualSalary l) = true ->
  Num.is_finite (Locals.fte l) = true ->
  exists e t lv ms p r : Q,
    Locals.effectiveAnnualSalary l = Fin e
    /\ calculateTax (Fin e) (InputState.taxYear i) = Ok (Fin t)
    /\ calculateMedicareLevy (Fin e) (InputState.taxYear i) = Ok (Fin lv)
    /\ calculateMedicareLevySurcharge (Fin e) (InputState.taxYear i)
         (InputState.hasPrivateHealthInsurance i) = Ok (Fin ms)
    /\ Locals.annualTax l = Fin t
    /\ Locals.annualMedicareLevy l = Fin lv
    /\ Locals.annualMedicareLevySurcharge l = Fin ms
    /\ Locals.periodsPerYear l = Fin p /\ (0 < p)%Q
    /\ Locals.superRate l = Fin r /\ (0 < r)%Q
    /\ Locals.grossPay l = Fin (e / p)
    /\ Locals.taxPerPeriod l = Fin (t / p)
    /\ Locals.medicareLevyPerPeriod l = Fin (lv / p)
    /\ Locals.medicareLevySurchargePerPeriod l = Fin (ms / p)
    /\ Locals.totalMedicareChargesPerPeriod l = Fin ((lv + ms) / p)
    /\ Locals.netPay l = Fin (e / p - t / p - (lv + ms) / p)
    /\ Locals.superannuation l = Fin (e / p * r).
Proof.
  intros H Hsal Hfte.
  invert_locals H. project_locals.
  destruct (finite_inv _ Hsal) as [a Ea]. destruct (finite_inv _ Hfte) as [f Ef].
  rewrite Ea, Ef in *. cbn [Num.mul] in *.
  destruct (calculateTax_finite _ _ _ Htax) as [t ->].
  destruct (calculateMedicareLevy_finite _ _ _ Hlevy) as [lv ->].
  destruct (calculateMedicareLevySurcharge_finite _ _ _ _ Hmls) as [ms ->].
  destruct (getPayPeriodsPerYear_pos (InputState.payFrequency i)) as (p & -> & Hp).
  assert (Hp0 : ~ (p == 0)%Q) by lra.
  assert (Hr : exists r, toNumber (lookup superRates (InputState.taxYear i)) = Fin r
                         /\ (0 < r)%Q).
  { unfold calculateTax in Htax.
    destruct (lookup taxBrackets (InputState.taxYear i)) as [b|] eqn:E;
      [|discriminate].
    apply taxYear_cases in E as [[-> _]|[-> _]]; eexists; split; reflexivity. }
  destruct Hr as (r & -> & Hr).
  exists (a * f)%Q, t, lv, ms, p, r.
  fin_arith. repeat split; try assumption; reflexivity.
Qed.

(** What the three helpers take from a finite non-negative income. *)
Lemma deductions_range (year : string) (insured : bool) (e t lv ms : Q) :
  calculateTax (Fin e) year = Ok (Fin t) ->
  calculateMedicareLevy (Fin e) year = Ok (Fin lv) ->
  calculateMedicareLevySurcharge (Fin e) year insured = Ok (Fin ms) ->
  (0 <= lv)%Q /\ (0 <= ms)%Q
  /\ ((0 <= e)%Q ->
      (0 <= t)%Q /\ (t <= 0.45 * e)%Q /\ (lv <= 0.02 * e)%Q
      /\ (ms <= 0.015 * e)%Q).
Proof.
  intros Htax Hlevy Hmls.
  assert (Hl : (0 <= lv)%Q /\ ((0 <= e)%Q -> (lv <= 0.02 * e)%Q)).
  { assert (Hyear : lookup medicareLevyThresholds year <> None).
    { intros E. unfold calculateMedicareLevy in Hlevy. rewrite E in Hlevy.
      discriminate. }
    rewrite (calculateMedicareLevy_levyOf _ _ Hyear) in Hlevy.
    destruct (levyOf_range e) as (v & Ev & Hv). rewrite Ev in Hlevy.
    injection Hlevy as <-. exact Hv. }
  assert (Hm : (0 <= ms)%Q /\ ((0 <= e)%Q -> (ms <= 0.015 * e)%Q)).
  { unfold calculateMedicareLevySurcharge in Hmls. destruct insured.
    - injection Hmls as <-. split; intros; lra.
    - destruct (lookup mlsThresholds year) as [ths|] eqn:E; [|discriminate].
      destruct (mls_loop_range ths e) as (v & Ev & Hv).
      { apply taxYear_cases in E as [[_ ->]|[_ ->]]; cbn; auto. }
      rewrite Ev in Hmls. injection Hmls as <-. exact Hv. }
  destruct Hl as [Hl0 Hl1], Hm as [Hm0 Hm1].
  split; [exact Hl0|]. split; [exact Hm0|].
  intros He. unfold calculateTax in Htax.
  destruct (lookup taxBrackets year) as [brackets|] eqn:E; [|discriminate].
  destruct (calculateTax_loop_range brackets e) as (v & Ev & Hv0 & Hv1);
    [eapply taxBrackets_table; eassumption|assumption|].
  rewrite Ev in Htax. injection Htax as <-.
  auto.
Qed.

(** X6.  For a finite salary and FTE with a non-negative effective salary,
    tax and Medicare charges together take at most 48.5 percent of the
    gross pay: the net income of the period lies between 51.5 percent of
    the gross pay and the gross pay. *)
Theorem net_income_within_gross (tz : Z) (i : InputState.t) (l : Locals.t) :
  computeLocals tz i = Ok l ->
  Num.is_finite (Locals.annualSalary l) = true ->
  Num.is_finite (Locals.fte l) = true ->
  (0 <=? Locals.effectiveAnnualSalary l) = true ->
  let r := resultsOf l in
  (0.515 * CalculationResults.grossPay r <=? CalculationResults.netIncome r) = true
  /\ (CalculationResults.netIncome r <=? CalculationResults.grossPay r) = true
  /\ (0 <=? CalculationResults.netIncome r) = true.
Proof.
  intros H Hsal Hfte Hpos r. subst r.
  destruct (locals_period tz i l H Hsal Hfte)
    as (e & t & lv & ms & p & r & Ee & Htax & Hlevy & Hmls & _ & _ & _ & _ & Hp
        & _ & _ & Eg & _ & _ & _ & _ & En & _).
  cbn [resultsOf CalculationResults.grossPay CalculationResults.netIncome].
  rewrite Ee in Hpos. rewrite Eg, En. apply leb_Fin in Hpos.
  destruct (deductions_range _ _ _ _ _ _ Htax Hlevy Hmls) as (Hlv & Hms & Hd).
  destruct (Hd Hpos) as (Ht0 & Ht & Hl & Hm).
  assert (Hip : (0 < / p)%Q) by (apply Qinv_lt_0_compat; exact Hp).
  cbn [Num.mul]. rewrite !leb_Fin. unfold Qdiv.
  repeat split; nra.
Qed.

(** ** Errors and fallbacks *)

(** X7.  [calculateResults] raises exactly when the inputs pass the guard
    and the tax year is not a key of the tables; the exception is the
    [TypeError] of [calculateTax] iterating over [undefined]. *)
Theorem calculateResults_raises_iff (tz : Z) (st : Component) :
  calculateResults tz st = TypeError
  <-> incomplete (inputs st) = false
      /\ lookup taxBrackets (InputState.taxYear (inputs st)) = None.
Proof.
  unfold calculateResults. split.
  - destruct (incomplete (inputs st)); [discriminate|]. intros H.
    split; [reflexivity|].
    destruct (lookup taxBrackets (InputState.taxYear (inputs st)))
      as [brackets|] eqn:E; [|reflexivity].
    destruct (computeLocals_defined tz (inputs st)) as [l El];
      [rewrite E; discriminate|].
    rewrite El in H. discriminate H.
  - intros [-> E]. unfold computeLocals, calculateTax. rewrite E. reflexivity.
Qed.



(** X9.  The period end date is required and otherwise ignored: replacing
    one non-empty period end date by another changes neither the outcome
    nor the results. *)
Theorem period_end_date_is_ignored (tz : Z) (st : Component) (value : string) :
  value <> "" ->
  InputState.periodEndDate (inputs st) <> "" ->
  match inputChanged tz st Field.periodEndDate value, calculateResults tz st with
  | Ok changed, Ok kept => results changed = results kept
  | TypeError, TypeError => True
  | _, _ => False
  end.
Proof.
  intros Hv Hold.
  unfold inputChanged, calculateResults, handleInputChange.
  destruct st as [i r]. destruct i as [fr pay pe sal start year hours fte ins].
  cbn [inputs results updateInputs InputState.periodEndDate] in *.
  assert (Hguard : incomplete (InputState.mk fr pay value sal start year hours fte ins)
                   = incomplete (InputState.mk fr pay pe sal start year hours fte ins)).
  { unfold incomplete.
    cbn [InputState.annualSalary InputState.payDate InputState.periodEndDate
         InputState.employmentStartDate].
    destruct value; [contradiction|]. destruct pe; [contradiction|].
    reflexivity. }
  rewrite Hguard. clear Hguard.
  destruct (incomplete (InputState.mk fr pay pe sal start year hours fte ins));
    [simpl; reflexivity|].
  change (computeLocals tz (InputState.mk fr pay value sal start year hours fte ins))
    with (computeLocals tz (InputState.mk fr pay pe sal start year hours fte ins)).
  destruct (computeLocals tz _); simpl; reflexivity.
Qed.

(** ** How the results depend on the inputs *)

(** The bindings of a run that are read straight off the inputs. *)
Lemma locals_inputs (tz : Z) (i : InputState.t) (l : Locals.t) :
  computeLocals tz i = Ok l ->
  Locals.annualSalary l = JS.parseFloat (InputState.annualSalary i)
  /\ Locals.fullTimeHours l = (JS.parseFloat (InputState.fullTimeHours i) || 38)
  /\ Locals.fte l = (JS.parseFloat (InputState.fte i) || 1.0)
  /\ Locals.periodsPerYear l = getPayPeriodsPerYear (InputState.payFrequency i)
  /\ Locals.payPeriodDays l = getPayPeriodDays (InputState.payFrequency i)
  /\ Locals.effectiveAnnualSalary l = Locals.annualSalary l * Locals.fte l
  /\ Locals.grossPay l = Locals.effectiveAnnualSalary l / Locals.periodsPerYear l
  /\ Locals.hoursPerPeriod l
     = Locals.fullTimeHours l * Locals.fte l * Locals.payPeriodDays l / 7
  /\ Locals.annualLeaveAccrualHours l
     = Locals.payPeriodDays l * 5 / 7 * (20 * Locals.fte l / 260.87)
       * (Locals.fullTimeHours l / 5)
  /\ calculateTax (Locals.effectiveAnnualSalary l) (InputState.taxYear i)
     = Ok (Locals.annualTax l)
  /\ calculateMedicareLevy (Locals.effectiveAnnualSalary l) (InputState.taxYear i)
     = Ok (Locals.annualMedicareLevy l)
  /\ calculateMedicareLevySurcharge (Locals.effectiveAnnualSalary l)
       (InputState.taxYear i) (InputState.hasPrivateHealthInsurance i)
     = Ok (Locals.annualMedicareLevySurcharge l).
Proof.
  intros H. invert_locals H.
  repeat split; try reflexivity; assumption.
Qed.

Ltac same_inputs :=
  cbn [updateInputs InputState.payFrequency InputState.payDate
       InputState.periodEndDate InputState.annualSalary
       InputState.employmentStartDate InputState.taxYear
       InputState.fullTimeHours InputState.fte
       InputState.hasPrivateHealthInsurance] in *.

(** X10.  Ticking the private health insurance box changes neither gross
    pay, tax, Medicare levy nor superannuation of the period, and for a
    finite salary and FTE it never lowers the net income. *)
Theorem insurance_never_lowers_net (tz : Z) (i : InputState.t) (l0 l1 : Locals.t) :
  computeLocals tz (updateInputs i Field.hasPrivateHealthInsurance false) = Ok l0 ->
  computeLocals tz (updateInputs i Field.hasPrivateHealthInsurance true) = Ok l1 ->
  Num.is_finite (Locals.annualSalary l0) = true ->
  Num.is_finite (Locals.fte l0) = true ->
  let r0 := resultsOf l0 in
  let r1 := resultsOf l1 in
  CalculationResults.grossPay r0 = CalculationResults.grossPay r1
  /\ CalculationResults.tax r0 = CalculationResults.tax r1
  /\ CalculationResults.medicareLevy r0 = CalculationResults.medicareLevy r1
  /\ CalculationResults.superannuation r0 = CalculationResults.superannuation r1
  /\ (CalculationResults.netIncome r0 <=? CalculationResults.netIncome r1) = true.
Proof.
  intros H0 H1 Hsal Hfte r0 r1. subst r0 r1.
  assert (Hsal1 : Locals.annualSalary l1 = Locals.annualSalary l0).
  { destruct (locals_inputs _ _ _ H0) as (-> & _).
    destruct (locals_inputs _ _ _ H1) as (-> & _).
    destruct i; reflexivity. }
  assert (Hfte1 : Locals.fte l1 = Locals.fte l0).
  { destruct (locals_inputs _ _ _ H0) as (_ & _ & -> & _).
    destruct (locals_inputs _ _ _ H1) as (_ & _ & -> & _).
    destruct i; reflexivity. }
  destruct (locals_period _ _ _ H0 Hsal Hfte)
    as (e & t & lv & ms & p & r & Ee & Htax & Hlevy & Hmls & _ & _ & _ & Ep & Hp
        & Er & _ & Eg & Et & El & _ & _ & En & Es).
  destruct (locals_period _ _ _ H1) as
      (e' & t' & lv' & ms' & p' & r' & Ee' & Htax' & Hlevy' & Hmls' & _ & _ & _
       & Ep' & _ & Er' & _ & Eg' & Et' & El' & _ & _ & En' & Es');
    [rewrite Hsal1; exact Hsal|rewrite Hfte1; exact Hfte|].
  destruct (locals_inputs _ _ _ H0) as (_ & _ & _ & Ip & _ & Ie & _).
  destruct (locals_inputs _ _ _ H1) as (_ & _ & _ & Ip' & _ & Ie' & _).
  assert (E1 : Fin e' = Fin e)
    by (rewrite <- Ee, <- Ee', Ie, Ie', Hsal1, Hfte1; reflexivity).
  assert (E2 : Fin p' = Fin p)
    by (rewrite <- Ep, <- Ep', Ip, Ip'; destruct i; reflexivity).
  assert (E3 : Fin r' = Fin r).
  { rewrite <- Er, <- Er'.
    clear - H0 H1. invert_locals H0. invert_locals H1.
    destruct i; reflexivity. }
  injection E1 as ->. injection E2 as ->. injection E3 as ->.
  destruct i as [fr pay pe sal start year hours fte ins]. same_inputs.
  rewrite Htax in Htax'. injection Htax' as <-.
  rewrite Hlevy in Hlevy'. injection Hlevy' as <-.
  cbn [calculateMedicareLevySurcharge] in Hmls'. injection Hmls' as <-.
  destruct (deductions_range _ _ _ _ _ _ Htax Hlevy Hmls) as (_ & Hms & _).
  cbn [resultsOf CalculationResults.grossPay CalculationResults.tax
       CalculationResults.medicareLevy CalculationResults.superannuation
       CalculationResults.netIncome].
  rewrite Eg, Eg', Et, Et', El, El', Es, Es', En, En'.
  repeat split. apply leb_Fin.
  assert (Hip : (0 < / p)%Q) by (apply Qinv_lt_0_compat; exact Hp).
  unfold Qdiv. nra.
Qed.



(** ** The surcharge note *)

Lemma per_period_positive (x : num) (p : Q) :
  (0 < p)%Q -> (x / Fin p >? 0) = (x >? 0).
Proof.
  intros Hp. assert (Hp0 : ~ (p == 0)%Q) by lra.
  destruct x as [| | |q]; unfold Num.gtb.
  - reflexivity.
  - cbn [Num.div]. unfold Num.sgn.
    destruct (p ?= 0)%Q eqn:E; try reflexivity.
    apply Qlt_alt in E. lra.
  - cbn [Num.div]. unfold Num.sgn.
    destruct (p ?= 0)%Q eqn:E; try reflexivity.
    apply Qlt_alt in E. lra.
  - rewrite div_Fin by assumption. cbn [Num.ltb].
    assert (Hip : (0 < / p)%Q) by (apply Qinv_lt_0_compat; exact Hp).
    destruct (Qle_bool (q / p) 0) eqn:E1, (Qle_bool q 0) eqn:E2;
      try reflexivity; reflect_Q; unfold Qdiv in *; exfalso; nra.
Qed.

(** The per-period figures in terms of the annual ones. *)
Lemma locals_per_period (tz : Z) (i : InputState.t) (l : Locals.t) :
  computeLocals tz i = Ok l ->
  Locals.taxPerPeriod l = Locals.annualTax l / Locals.periodsPerYear l
  /\ Locals.medicareLevyPerPeriod l
     = Locals.annualMedicareLevy l / Locals.periodsPerYear l
  /\ Locals.medicareLevySurchargePerPeriod l
     = Locals.annualMedicareLevySurcharge l / Locals.periodsPerYear l
  /\ Locals.totalMedicareChargesPerPeriod l
     = (Locals.annualMedicareLevy l + Locals.annualMedicareLevySurcharge l)
       / Locals.periodsPerYear l
  /\ Locals.netPay l
     = Locals.grossPay l - Locals.taxPerPeriod l
       - Locals.totalMedicareChargesPerPeriod l
  /\ Locals.superannuation l = Locals.grossPay l * Locals.superRate l.
Proof.
  intros H. invert_locals H. repeat split; reflexivity.
Qed.

(** X13.  On fresh results the note says that the surcharge applies exactly
    when there is no private health insurance and the annual surcharge is
    positive; with insurance it always says that the user is insured. *)
Theorem surcharge_note_matches_inputs (tz : Z) (i : InputState.t) (l : Locals.t) :
  computeLocals tz i = Ok l ->
  (InputState.hasPrivateHealthInsurance i = true ->
   surchargeNote i (resultsOf l) = NoSurchargeInsured)
  /\ (surchargeNote i (resultsOf l) = SurchargeApplies
      <-> InputState.hasPrivateHealthInsurance i = false
          /\ (Locals.annualMedicareLevySurcharge l >? 0) = true).
Proof.
  intros H.
  destruct (locals_inputs _ _ _ H) as (_ & _ & _ & Ip & _ & _ & _ & _ & _ & _ & _ & Hmls).
  assert (Eper : (CalculationResults.medicareLevySurcharge (resultsOf l) >? 0)
                 = (Locals.annualMedicareLevySurcharge l >? 0)).
  { destruct (locals_per_period _ _ _ H) as (_ & _ & Es & _).
    cbn [resultsOf CalculationResults.medicareLevySurcharge].
    rewrite Es, Ip.
    destruct (getPayPeriodsPerYear_pos (InputState.payFrequency i)) as (p & -> & Hp).
    apply per_period_positive, Hp. }
  unfold surchargeNote. rewrite Eper.
  destruct (InputState.hasPrivateHealthInsurance i) eqn:Eins.
  - cbn [calculateMedicareLevySurcharge] in Hmls. injection Hmls as <-.
    split; [reflexivity|]. split; [discriminate|intros [? _]; discriminate].
  - split; [discriminate|].
    destruct (Locals.annualMedicareLevySurcharge l >? 0); split;
      try discriminate; auto. intros [_ ?]; discriminate.
Qed.

(** ** Year-to-date figures, continued *)

(** The year-to-date bindings in terms of the others. *)
Lemma locals_ytd (tz : Z) (i : InputState.t) (l : Locals.t) :
  computeLocals tz i = Ok l ->
  Locals.ytdProportion l = Locals.daysDiff l / 365.25
  /\ Locals.periodsToDate l
     = Num.floor (Locals.daysDiff l / Locals.payPeriodDays l) + 1
  /\ Locals.ytdGross l
     = Num.min (Locals.grossPay l * Locals.periodsToDate l)
               (Locals.effectiveAnnualSalary l * Locals.ytdProportion l)
  /\ Locals.ytdTax l
     = Num.min (Locals.taxPerPeriod l * Locals.periodsToDate l)
               (Locals.annualTax l * Locals.ytdProportion l)
  /\ Locals.ytdMedicareLevy l
     = Num.min (Locals.medicareLevyPerPeriod l * Locals.periodsToDate l)
               (Locals.annualMedicareLevy l * Locals.ytdProportion l)
  /\ Locals.ytdMedicareLevySurcharge l
     = Num.min (Locals.medicareLevySurchargePerPeriod l * Locals.periodsToDate l)
               (Locals.annualMedicareLevySurcharge l * Locals.ytdProportion l)
  /\ Locals.ytdTotalMedicareCharges l
     = Num.min (Locals.totalMedicareChargesPerPeriod l * Locals.periodsToDate l)
               ((Locals.annualMedicareLevy l + Locals.annualMedicareLevySurcharge l)
                * Locals.ytdProportion l)
  /\ Locals.ytdNet l
     = Num.min (Locals.netPay l * Locals.periodsToDate l)
               (Locals.effectiveAnnualSalary l * Locals.ytdProportion l
                - Locals.annualTax l * Locals.ytdProportion l
                - (Locals.annualMedicareLevy l + Locals.annualMedicareLevySurcharge l)
                  * Locals.ytdProportion l)
  /\ Locals.ytdSuper l
     = Num.min (Locals.superannuation l * Locals.periodsToDate l)
               (Locals.effectiveAnnualSalary l * Locals.ytdProportion l
                * Locals.superRate l).
Proof.
  intros H. invert_locals H. repeat split; reflexivity.
Qed.

(** The smaller of two shares of a non-negative figure is the figure times
    the smaller share. *)
Lemma min_of_shares (a b X u c : Q) :
  (a == X * u)%Q -> (b == X * c)%Q -> (0 <= X)%Q ->
  exists q, Num.min (Fin a) (Fin b) = Fin q
            /\ (q == X * (if Qle_bool u c then u else c))%Q.
Proof.
  intros Ha Hb HX. unfold Num.min.
  destruct (Qle_bool a b) eqn:E1, (Qle_bool u c) eqn:E2; reflect_Q;
    eexists; (split; [reflexivity|]); try assumption.
  - rewrite Ha, Hb in E1. rewrite Ha. nra.
  - rewrite Ha, Hb in E1. rewrite Hb. nra.
Qed.

(** The year-to-date figures of a run on a finite non-negative effective
    salary and a finite day count: each is its annual figure times the
    smaller of periodsToDate / periodsPerYear and ytdProportion. *)
Lemma ytd_as_shares (tz : Z) (i : InputState.t) (l : Locals.t) :
  computeLocals tz i = Ok l ->
  Num.is_finite (Locals.annualSalary l) = true ->
  Num.is_finite (Locals.fte l) = true ->
  Num.is_finite (Locals.daysDiff l) = true ->
  (0 <=? Locals.effectiveAnnualSalary l) = true ->
  exists e t lv ms r p k c : Q,
    (Locals.effectiveAnnualSalary l = Fin e /\ Locals.annualTax l = Fin t
     /\ Locals.annualMedicareLevy l = Fin lv
     /\ Locals.annualMedicareLevySurcharge l = Fin ms
     /\ Locals.superRate l = Fin r /\ Locals.periodsPerYear l = Fin p
     /\ Locals.periodsToDate l = Fin k /\ Locals.ytdProportion l = Fin c)
    /\ ((0 <= e)%Q /\ (0 <= t)%Q /\ (0 <= lv)%Q /\ (0 <= ms)%Q
        /\ (t + lv + ms <= 0.485 * e)%Q /\ (0 < r)%Q /\ (0 < p)%Q)
    /\ exists qg qt ql qm qs qn qr : Q,
         (Locals.ytdGross l = Fin qg /\ Locals.ytdTax l = Fin qt
          /\ Locals.ytdMedicareLevy l = Fin ql
          /\ Locals.ytdMedicareLevySurcharge l = Fin qm
          /\ Locals.ytdTotalMedicareCharges l = Fin qs
          /\ Locals.ytdNet l = Fin qn /\ Locals.ytdSuper l = Fin qr)
         /\ let m := if Qle_bool (k / p) c then (k / p)%Q else c in
            (qg == e * m)%Q /\ (qt == t * m)%Q /\ (ql == lv * m)%Q
            /\ (qm == ms * m)%Q /\ (qs == (lv + ms) * m)%Q
            /\ (qn == (e - t - (lv + ms)) * m)%Q /\ (qr == e * r * m)%Q.
Proof.
  intros H Hsal Hfte Hdays Hpos.
  destruct (locals_period tz i l H Hsal Hfte)
    as (e & t & lv & ms & p & r & Ee & Htax & Hlevy & Hmls & Et & El & Em & Ep & Hp
        & Er & Hr & Eg & Etp & Elp & Emp & Etot & En & Es).
  destruct (locals_ytd tz i l H)
    as (Eprop & Eptd & Yg & Yt & Yl & Ym & Ytot & Yn & Ys).
  destruct (locals_inputs tz i l H) as (_ & _ & _ & _ & Id & _).
  destruct (getPayPeriodDays_pos (InputState.payFrequency i)) as (pd & Epd & Hpd).
  destruct (finite_inv _ Hdays) as [d Ed].
  rewrite Ee in Hpos. apply leb_Fin in Hpos.
  destruct (deductions_range _ _ _ _ _ _ Htax Hlevy Hmls) as (Hlv & Hms & Hd).
  destruct (Hd Hpos) as (Ht0 & Ht & Hl & Hm).
  assert (Hpd0 : ~ (pd == 0)%Q) by lra.
  assert (Hp0 : ~ (p == 0)%Q) by lra.
  rewrite Id, Epd, Ed in Eptd. rewrite Ed in Eprop.
  revert Eptd Eprop. fin_arith.
  set (k := (inject_Z (Qfloor (d / pd)) + 1)%Q). set (c := (d / 365.25)%Q).
  intros Eptd Eprop.
  destruct (min_of_shares (e / p * k) (e * c) e (k / p) c
              ltac:(field; exact Hp0) ltac:(reflexivity) Hpos) as (qg & Qg & Hg).
  destruct (min_of_shares (t / p * k) (t * c) t (k / p) c
              ltac:(field; exact Hp0) ltac:(reflexivity) Ht0) as (qt & Qt & Hqt).
  destruct (min_of_shares (lv / p * k) (lv * c) lv (k / p) c
              ltac:(field; exact Hp0) ltac:(reflexivity) Hlv) as (ql & Ql & Hql).
  destruct (min_of_shares (ms / p * k) (ms * c) ms (k / p) c
              ltac:(field; exact Hp0) ltac:(reflexivity) Hms) as (qm & Qm & Hqm).
  destruct (min_of_shares ((lv + ms) / p * k) ((lv + ms) * c) (lv + ms) (k / p) c
              ltac:(field; exact Hp0) ltac:(reflexivity) ltac:(lra))
    as (qs & Qs & Hqs).
  destruct (min_of_shares ((e / p - t / p - (lv + ms) / p) * k)
              (e * c + - (t * c) + - ((lv + ms) * c)) (e - t - (lv + ms)) (k / p) c
              ltac:(field; exact Hp0) ltac:(ring) ltac:(lra))
    as (qn & Qn & Hqn).
  destruct (min_of_shares (e / p * r * k) (e * c * r) (e * r) (k / p) c
              ltac:(field; exact Hp0) ltac:(ring) ltac:(nra))
    as (qr & Qr & Hqr).
  exists e, t, lv, ms, r, p, k, c.
  split; [repeat split; assumption|].
  split; [repeat split; try assumption; lra|].
  exists qg, qt, ql, qm, qs, qn, qr.
  rewrite Yg, Yt, Yl, Ym, Ytot, Yn, Ys.
  rewrite Eg, Etp, Elp, Emp, Etot, En, Es, Ee, Et, El, Em, Er, Eptd, Eprop.
  cbn [Num.mul Num.add Num.sub Num.neg].
  split; [repeat split; assumption|].
  cbv zeta. repeat split; assumption.
Qed.


(** ** Dates, continued *)

Local Open Scope Z_scope.

Lemma allFrom_spec (f : Z -> bool) (n : nat) (start z : Z) :
  allFrom f start n = true -> start <= z < start + Z.of_nat n -> f z = true.
Proof.
  revert start. induction n as [|k IH]; intros start H Hz; [lia|].
  cbn [allFrom] in H. apply andb_prop in H as [Hk Hrest].
  destruct (Z.eq_dec z start) as [->|Hne]; [exact Hk|].
  apply (IH (start + 1)); [exact Hrest|lia].
Qed.

(** The Gregorian calendar repeats every 400 years, that is 146097 days. *)
Lemma civil_from_days_cycle (z k : Z) :
  Date.civil_from_days (z + 146097 * k)
  = (fst (fst (Date.civil_from_days z)) + 400 * k,
     snd (fst (Date.civil_from_days z)),
     snd (Date.civil_from_days z)).
Proof.
  unfold Date.civil_from_days. cbv zeta.
  replace ((z + 146097 * k + 719468) / 146097)
    with ((z + 719468) / 146097 + k)
    by (replace (z + 146097 * k + 719468) with (z + 719468 + k * 146097) by ring;
        rewrite Z.div_add by lia; reflexivity).
  replace (z + 146097 * k + 719468 - ((z + 719468) / 146097 + k) * 146097)
    with (z + 719468 - (z + 719468) / 146097 * 146097) by ring.
  cbn [fst snd]. f_equal. f_equal. ring.
Qed.

Lemma days_from_civil_cycle (y m d k : Z) :
  Date.days_from_civil (y + 400 * k) m d
  = Date.days_from_civil y m d + 146097 * k.
Proof.
  unfold Date.days_from_civil. cbv zeta.
  set (y' := if m <=? 2 then y - 1 else y).
  replace (if m <=? 2 then y + 400 * k - 1 else y + 400 * k)
    with (y' + k * 400) by (subst y'; destruct (m <=? 2); ring).
  rewrite Z.div_add by lia.
  replace (y' + k * 400 - (y' / 400 + k) * 400) with (y' - y' / 400 * 400) by ring.
  ring.
Qed.

Lemma inFinancialYear_cycle (z k : Z) :
  inFinancialYear (z + 146097 * k) = inFinancialYear z.
Proof.
  unfold inFinancialYear, fyStartDay. cbv zeta.
  rewrite civil_from_days_cycle. cbn [fst snd].
  replace (if snd (fst (Date.civil_from_days z)) - 1 <? 6
           then fst (fst (Date.civil_from_days z)) + 400 * k - 1
           else fst (fst (Date.civil_from_days z)) + 400 * k)
    with ((if snd (fst (Date.civil_from_days z)) - 1 <? 6
           then fst (fst (Date.civil_from_days z)) - 1
           else fst (fst (Date.civil_from_days z))) + 400 * k)
    by (destruct (_ <? 6); ring).
  rewrite days_from_civil_cycle.
  set (F := Date.days_from_civil _ 7 1).
  destruct (Z.leb_spec (F + 146097 * k) (z + 146097 * k)), (Z.leb_spec F z);
    try lia;
    destruct (Z.leb_spec (z + 146097 * k) (F + 146097 * k + 365)),
             (Z.leb_spec z (F + 365)); try lia; reflexivity.
Qed.

Lemma inFinancialYear_one_cycle :
  allFrom inFinancialYear 0 (Z.to_nat 146097) = true.
Proof. vm_compute. reflexivity. Qed.

(** Every day lies in the 366 days from the start of its financial year. *)
Lemma inFinancialYear_always (z : Z) : inFinancialYear z = true.
Proof.
  rewrite (Z.div_mod z 146097) by lia.
  replace (146097 * (z / 146097) + z mod 146097)
    with (z mod 146097 + 146097 * (z / 146097)) by ring.
  rewrite inFinancialYear_cycle.
  apply (allFrom_spec _ _ _ _ inFinancialYear_one_cycle).
  pose proof (Z.mod_pos_bound z 146097 ltac:(lia)).
  rewrite Z2Nat.id by lia. lia.
Qed.

Lemma financial_year_of_day (z : Z) :
  fyStartDay z <= z <= fyStartDay z + 365.
Proof.
  pose proof (inFinancialYear_always z) as H.
  unfold inFinancialYear in H. cbv zeta in H.
  apply andb_prop in H as [H1 H2]. apply Z.leb_le in H1, H2. lia.
Qed.

Lemma civil_year_from_1970 (z : Z) :
  -1 <= z -> 1600 <= fst (fst (Date.civil_from_days z)).
Proof.
  intros Hz. unfold Date.civil_from_days. cbv zeta. cbn [fst].
  repeat match goal with |- context [if ?c then _ else _] => destruct c end;
    Z.to_euclidean_division_equations; lia.
Qed.

Lemma ltb_whole (a b : Z) :
  (Fin (inject_Z a) <? Fin (inject_Z b))%num = (a <? b).
Proof.
  cbn [Num.ltb]. unfold Qle_bool, inject_Z. cbn [Qnum Qden].
  rewrite !Z.mul_1_r.
  destruct (Z.leb_spec b a), (Z.ltb_spec a b); try lia; reflexivity.
Qed.

(** The difference of two time values in whole days. *)
Lemma floor_of_days (a b : Z) :
  Num.floor ((Fin (inject_Z a) - Fin (inject_Z b))
             / (Fin 1000%Q * Fin 60%Q * Fin 60%Q * Fin 24%Q))%num
  = Fin (inject_Z ((a - b) / 86400000)).
Proof.
  cbn [Num.sub Num.add Num.neg Num.mul].
  rewrite div_Fin by lra. cbn [Num.floor]. do 2 f_equal.
  rewrite Zdiv_Qdiv. apply Qfloor_comp.
  unfold Z.sub. rewrite inject_Z_plus, inject_Z_opp.
  assert (E : (1000 * 60 * 60 * 24 == inject_Z 86400000)%Q) by reflexivity.
  rewrite E. reflexivity.
Qed.

Lemma truncate_comp (q q' : Q) : (q == q')%Q -> Date.truncate q = Date.truncate q'.
Proof.
  intros E. unfold Date.truncate.
  rewrite (Qleb_comp 0%Q 0%Q (Qeq_refl 0%Q) q q' E).
  rewrite (Qfloor_comp q q' E), (Qceiling_comp q q' E). reflexivity.
Qed.

(** The year handed to [new Date(year, 6, 1)] is the calendar year, less one
    up to June. *)
Lemma make_year_argument (tz y : Z) (b : bool) :
  Date.make tz (Fin (inject_Z y) - (if b then Fin 1%Q else Fin 0%Q))%num 6 1
  = Date.make tz (Fin (inject_Z (if b then y - 1 else y))) 6 1.
Proof.
  unfold Date.make.
  destruct b; cbn [Num.sub Num.add Num.neg].
  - rewrite (truncate_comp (Qplus (inject_Z y) (Qopp 1%Q)) (inject_Z (y - 1))); [reflexivity|].
    unfold Z.sub. rewrite inject_Z_plus, inject_Z_opp. reflexivity.
  - rewrite (truncate_comp (Qplus (inject_Z y) (Qopp 0%Q)) (inject_Z y)); [reflexivity|].
    ring.
Qed.

(** The first of July of a year from 100 on, within the range of dates. *)
Lemma make_july (tz fy : Z) :
  100 <= fy ->
  Z.abs (Date.days_from_civil fy 7 1 * 86400000 - tz * 60000) <= 8640000000000000 ->
  Date.make tz (Fin (inject_Z fy)) 6 1
  = Some (Date.days_from_civil fy 7 1 * Date.msPerDay - tz * Date.msPerMinute).
Proof.
  intros Hfy Hclip. unfold Date.make. rewrite truncate_whole. cbv zeta.
  replace ((0 <=? fy) && (fy <=? 99))%bool with false
    by (symmetry; apply andb_false_iff; right; apply Z.leb_gt; lia).
  change (6 / 12) with 0. change (6 mod 12 + 1) with 7.
  rewrite Z.add_0_r.
  replace (Date.days_from_civil fy 7 1 + 1 - 1)
    with (Date.days_from_civil fy 7 1) by ring.
  unfold Date.timeClip, Date.msPerDay, Date.msPerMinute.
  apply Z.leb_le in Hclip. rewrite Hclip. reflexivity.
Qed.

(** For a pay date from 1970 on, [financialYearStart] is local midnight of
    the first of July that starts the financial year of the local pay
    day. *)
Lemma financialYearStart_value (tz ms : Z) :
  -1440 <= tz <= 1440 -> 0 <= ms <= 8640000000000000 ->
  Date.make tz
    (Date.getFullYear tz (Some ms)
     - (if Date.getMonth tz (Some ms) <? Fin 6%Q then Fin 1%Q else Fin 0%Q))%num
    6 1
  = Some (fyStartDay ((ms + tz * Date.msPerMinute) / Date.msPerDay)
          * Date.msPerDay - tz * Date.msPerMinute).
Proof.
  intros Htz Hms.
  pose proof (financial_year_of_day ((ms + tz * Date.msPerMinute) / Date.msPerDay))
    as HF.
  pose proof (civil_year_from_1970 ((ms + tz * Date.msPerMinute) / Date.msPerDay))
    as HY.
  assert (Hz : -1 <= (ms + tz * Date.msPerMinute) / Date.msPerDay
               /\ (ms + tz * Date.msPerMinute) / Date.msPerDay * 86400000
                  <= ms + tz * 60000).
  { unfold Date.msPerMinute, Date.msPerDay.
    Z.to_euclidean_division_equations. lia. }
  specialize (HY (proj1 Hz)).
  unfold Date.getFullYear, Date.getMonth, Date.localCivil.
  change (Fin 6%Q) with (Fin (inject_Z 6)). rewrite ltb_whole.
  rewrite make_year_argument.
  unfold fyStartDay in *.
  generalize dependent (Date.civil_from_days
                          ((ms + tz * Date.msPerMinute) / Date.msPerDay)).
  intros c HF HY.
  generalize dependent ((ms + tz * Date.msPerMinute) / Date.msPerDay).
  intros z; intros.
  cbv zeta in *.
  apply make_july.
  - destruct (snd (fst c) - 1 <? 6); lia.
  - lia.
Qed.

Local Close Scope Z_scope.

(** The date bindings of a run. *)
Lemma locals_dates (tz : Z) (i : InputState.t) (l : Locals.t) :
  computeLocals tz i = Ok l ->
  Locals.payDate l = Date.parse (InputState.payDate i)
  /\ Locals.employmentStart l = Date.parse (InputState.employmentStartDate i)
  /\ Locals.financialYearStart l
     = Date.make tz
         (Date.getFullYear tz (Locals.payDate l)
          - (if Date.getMonth tz (Locals.payDate l) <? 6 then 1 else 0)) 6 1
  /\ Locals.ytdStartDate l
     = (if Date.getTime (Locals.employmentStart l)
           >? Date.getTime (Locals.financialYearStart l)
        then Locals.employmentStart l else Locals.financialYearStart l)
  /\ Locals.daysDiff l
     = Num.floor ((Date.getTime (Locals.payDate l)
                   - Date.getTime (Locals.ytdStartDate l))
                  / (1000 * 60 * 60 * 24)).
Proof.
  intros H. invert_locals H. repeat split; reflexivity.
Qed.

Lemma gtb_whole (a b : Z) :
  (Fin (inject_Z a) >? Fin (inject_Z b)) = (b <? a)%Z.
Proof. unfold Num.gtb. apply ltb_whole. Qed.

(** For a pay date from 1970 on (and a host offset within a day of UTC) the
    day count is a whole number of at most 365, and it is negative exactly
    when the employment start date is after the pay date. *)
Lemma daysDiff_whole_number (tz : Z) (i : InputState.t) (l : Locals.t) (ms : Z) :
  computeLocals tz i = Ok l ->
  (-1440 <= tz <= 1440)%Z ->
  Locals.payDate l = Some ms ->
  (0 <= ms)%Z ->
  exists d : Z,
    Locals.daysDiff l = Fin (inject_Z d)
    /\ (d <= 365)%Z
    /\ ((d < 0)%Z
        <-> (Date.getTime (Locals.employmentStart l)
             >? Date.getTime (Locals.payDate l)) = true).
Proof.
  intros H Htz Hpay Hms.
  destruct (locals_dates tz i l H) as (Ep & Ee & Ef & Ey & Ed).
  assert (Hclip : (ms <= 8640000000000000)%Z).
  { rewrite Hpay in Ep. symmetry in Ep.
    destruct (parse_shape _ _ Ep) as (y & m & d & Hy & Hm & Hd & ->).
    pose proof (days_from_civil_parsed y m d Hy Hm Hd).
    unfold Date.msPerDay. lia. }
  rewrite Hpay in Ef, Ed |- *.
  rewrite (financialYearStart_value tz ms Htz (conj Hms Hclip)) in Ef.
  pose proof (financial_year_of_day ((ms + tz * Date.msPerMinute) / Date.msPerDay))
    as HF.
  set (F := fyStartDay ((ms + tz * Date.msPerMinute) / Date.msPerDay)) in *.
  rewrite Ey, Ef in Ed. rewrite Ef in Ey.
  cbn [Date.getTime] in Ed |- *. unfold Date.msPerDay, Date.msPerMinute in *.
  destruct (Locals.employmentStart l) as [e|]; cbn [Date.getTime] in Ed |- *.
  - rewrite gtb_whole in Ed. rewrite gtb_whole.
    destruct (Z.ltb_spec (F * 86400000 - tz * 60000) e) as [Hlate|Hearly];
      cbn [Date.getTime] in Ed; rewrite floor_of_days in Ed;
      eexists; (split; [exact Ed|]).
    + split; [Z.to_euclidean_division_equations; lia|].
      rewrite Z.ltb_lt. Z.to_euclidean_division_equations. lia.
    + split; [Z.to_euclidean_division_equations; lia|].
      rewrite Z.ltb_lt. Z.to_euclidean_division_equations. lia.
  - cbn [Num.gtb Num.ltb] in Ed. cbn [Date.getTime] in Ed.
    rewrite floor_of_days in Ed.
    eexists. split; [exact Ed|].
    split; [Z.to_euclidean_division_equations; lia|].
    split; [Z.to_euclidean_division_equations; lia|discriminate].
Qed.

(** The day count and the pay-period bindings of a run with a valid pay
    date, as rationals. *)
Lemma ytd_shares (tz : Z) (i : InputState.t) (l : Locals.t) (ms : Z) :
  computeLocals tz i = Ok l ->
  (-1440 <= tz <= 1440)%Z ->
  Locals.payDate l = Some ms ->
  (0 <= ms)%Z ->
  exists (d : Z) (pd : Q),
    Locals.daysDiff l = Fin (inject_Z d)
    /\ (d <= 365)%Z
    /\ ((d < 0)%Z
        <-> (Date.getTime (Locals.employmentStart l)
             >? Date.getTime (Locals.payDate l)) = true)
    /\ Locals.payPeriodDays l = Fin pd /\ (7 <= pd)%Q
    /\ Locals.ytdProportion l = Fin (inject_Z d / 365.25)
    /\ Locals.periodsToDate l = Fin (inject_Z (Qfloor (inject_Z d / pd)) + 1)
    /\ ((0 <= d)%Z -> (1 <= inject_Z (Qfloor (inject_Z d / pd)) + 1 <= 53)%Q)
    /\ ((d < 0)%Z -> (inject_Z (Qfloor (inject_Z d / pd)) + 1 <= 0)%Q).
Proof.
  intros H Htz Hpay Hms.
  destruct (daysDiff_whole_number tz i l ms H Htz Hpay Hms) as (d & Ed & Hd & Hneg).
  destruct (locals_ytd tz i l H) as (Eprop & Eptd & _).
  destruct (locals_inputs tz i l H) as (_ & _ & _ & _ & Id & _).
  assert (Hpd : exists pd, getPayPeriodDays (InputState.payFrequency i) = Fin pd
                           /\ (7 <= pd)%Q).
  { pose proof (getPayPeriodDays_cases (InputState.payFrequency i)) as Hc.
    cbn [In] in Hc.
    destruct Hc as [<-|[<-|[<-|[<-|[]]]]]; eexists; (split; [reflexivity|]); lra. }
  destruct Hpd as (pd & Epd & Hpd).
  exists d, pd. rewrite Id, Epd in *. rewrite Ed in Eprop, Eptd.
  assert (Hpd0 : ~ (pd == 0)%Q) by lra.
  revert Eprop Eptd. fin_arith. intros Eprop Eptd.
  repeat split; try assumption; try (apply Hneg; assumption).
  - assert (Hq : (0 <= inject_Z d / pd)%Q).
    { apply Qle_shift_div_l; [lra|]. rewrite Qmult_0_l.
      change 0%Q with (inject_Z 0). rewrite <- Zle_Qle. assumption. }
    apply Qfloor_resp_le in Hq. change (Qfloor 0) with 0%Z in Hq.
    rewrite Zle_Qle in Hq. change (inject_Z 0) with 0%Q in Hq. lra.
  - assert (Hq : (inject_Z d / pd <= 365 # 7)%Q).
    { apply Qle_shift_div_r; [lra|].
      assert (inject_Z d <= 365)%Q
        by (change 365%Q with (inject_Z 365); rewrite <- Zle_Qle; assumption).
      lra. }
    apply Qfloor_resp_le in Hq. change (Qfloor (365 # 7)) with 52%Z in Hq.
    rewrite Zle_Qle in Hq. change (inject_Z 52) with 52%Q in Hq. lra.
  - intros Hlt.
    assert (Hq : (inject_Z d / pd < 0)%Q).
    { apply Qlt_shift_div_r; [lra|]. rewrite Qmult_0_l.
      change 0%Q with (inject_Z 0). rewrite <- Zlt_Qlt. assumption. }
    pose proof (Qfloor_le (inject_Z d / pd)) as Hf.
    assert (Hlt0 : (inject_Z (Qfloor (inject_Z d / pd)) < inject_Z 0)%Q)
      by (change (inject_Z 0) with 0%Q; lra).
    rewrite <- Zlt_Qlt in Hlt0.
    assert (Hle : (Qfloor (inject_Z d / pd) <= -1)%Z) by lia.
    rewrite Zle_Qle in Hle. change (inject_Z (-1)) with (-1%Q) in Hle. lra.
Qed.

(** X15.  For a pay date from 1970 on that is not before the employment
    start date, the result counts between 1 and 53 pay periods to date. *)
Theorem periods_to_date_range (tz : Z) (i : InputState.t) (l : Locals.t) (ms : Z) :
  computeLocals tz i = Ok l ->
  (-1440 <= tz <= 1440)%Z ->
  Locals.payDate l = Some ms ->
  (0 <= ms)%Z ->
  (Date.getTime (Locals.employmentStart l) >? Date.getTime (Locals.payDate l))
  = false ->
  let r := resultsOf l in
  (1 <=? CalculationResults.periodsToDate r) = true
  /\ (CalculationResults.periodsToDate r <=? 53) = true
  /\ (0 <=? Locals.daysDiff l) = true
  /\ (Locals.daysDiff l <=? 365) = true.
Proof.
  intros H Htz Hpay Hms Hemp r. subst r.
  destruct (ytd_shares tz i l ms H Htz Hpay Hms)
    as (d & pd & Ed & Hd & Hneg & _ & _ & _ & Eptd & Hk & _).
  assert (Hd0 : (0 <= d)%Z).
  { destruct (Z.lt_ge_cases d 0) as [Hlt|]; [|assumption].
    apply Hneg in Hlt. congruence. }
  cbn [resultsOf CalculationResults.periodsToDate]. rewrite Eptd, Ed.
  rewrite !leb_Fin. destruct (Hk Hd0).
  repeat split; try assumption.
  - change 0%Q with (inject_Z 0). rewrite <- Zle_Qle. assumption.
  - change 365%Q with (inject_Z 365). rewrite <- Zle_Qle. assumption.
Qed.

Lemma Fin_inj (a b : Q) : Fin a = Fin b -> a = b.
Proof. congruence. Qed.

Lemma within_Fin (lo x hi : Q) :
  (lo <= x)%Q -> (x <= hi)%Q -> within (Fin lo) (Fin x) (Fin hi) = true.
Proof.
  intros H1 H2. unfold within. apply andb_true_intro. rewrite !leb_Fin. auto.
Qed.

Lemma share_within (X m q hi : Q) :
  (q == X * m)%Q -> (0 <= X)%Q -> (0 <= m)%Q -> (m <= 1)%Q -> (X <= hi)%Q ->
  within 0 (Fin q) (Fin hi) = true.
Proof.
  intros Hq HX Hm0 Hm1 Hhi.
  assert (0 <= X * m)%Q by (apply Qmult_le_0_compat; assumption).
  assert (0 <= X * (1 - m))%Q by (apply Qmult_le_0_compat; lra).
  apply within_Fin; rewrite Hq; lra.
Qed.

(** X16.  For a pay date from 1970 on that is not before the employment
    start date, and a finite non-negative effective salary, every
    year-to-date figure lies between zero and its annual figure. *)
Theorem ytd_between_zero_and_annual (tz : Z) (i : InputState.t) (l : Locals.t)
        (ms : Z) :
  computeLocals tz i = Ok l ->
  (-1440 <= tz <= 1440)%Z ->
  Locals.payDate l = Some ms ->
  (0 <= ms)%Z ->
  (Date.getTime (Locals.employmentStart l) >? Date.getTime (Locals.payDate l))
  = false ->
  Num.is_finite (Locals.annualSalary l) = true ->
  Num.is_finite (Locals.fte l) = true ->
  (0 <=? Locals.effectiveAnnualSalary l) = true ->
  let y := CalculationResults.ytd (resultsOf l) in
  let charges := Locals.annualMedicareLevy l + Locals.annualMedicareLevySurcharge l in
  within 0 (Ytd.gross y) (Locals.effectiveAnnualSalary l) = true
  /\ within 0 (Ytd.tax y) (Locals.annualTax l) = true
  /\ within 0 (Ytd.medicareLevy y) (Locals.annualMedicareLevy l) = true
  /\ within 0 (Ytd.medicareLevySurcharge y) (Locals.annualMedicareLevySurcharge l)
     = true
  /\ within 0 (Ytd.totalMedicareCharges y) charges = true
  /\ within 0 (Ytd.net y)
       (Locals.effectiveAnnualSalary l - Locals.annualTax l - charges) = true
  /\ within 0 (Ytd.super y) (Locals.effectiveAnnualSalary l * Locals.superRate l)
     = true.
Proof.
  intros H Htz Hpay Hms Hemp Hsal Hfte Hpos y charges. subst y charges.
  destruct (ytd_shares tz i l ms H Htz Hpay Hms)
    as (d & pd & Ed & Hd & Hneg & _ & _ & Eprop & Eptd & Hk & _).
  assert (Hd0 : (0 <= d)%Z).
  { destruct (Z.lt_ge_cases d 0) as [Hlt|]; [|assumption].
    apply Hneg in Hlt. congruence. }
  assert (Hdays : Num.is_finite (Locals.daysDiff l) = true)
    by (rewrite Ed; reflexivity).
  destruct (ytd_as_shares tz i l H Hsal Hfte Hdays Hpos)
    as (e & t & lv & mls & r & p & k & c
        & (Ee & Et & El & Em & Er & _ & Ek & Ec)
        & (He & Ht & Hlv & Hmls & Hsum & Hr & Hp)
        & qg & qt & ql & qm & qs & qn & qr
        & (Yg & Yt & Yl & Ym & Ytot & Yn & Ys)
        & Hg & Hqt & Hql & Hqm & Hqs & Hqn & Hqr).
  rewrite Eptd in Ek. apply Fin_inj in Ek.
  rewrite Eprop in Ec. apply Fin_inj in Ec.
  destruct (Hk Hd0) as [Hk1 _]. rewrite Ek in Hk1.
  assert (Hc : (0 <= c)%Q /\ (c <= 1)%Q).
  { rewrite <- Ec.
    assert (0 <= inject_Z d)%Q
      by (change 0%Q with (inject_Z 0); rewrite <- Zle_Qle; assumption).
    assert (inject_Z d <= 365)%Q
      by (change 365%Q with (inject_Z 365); rewrite <- Zle_Qle; assumption).
    split; [apply Qle_shift_div_l|apply Qle_shift_div_r]; lra. }
  set (m := if Qle_bool (k / p) c then (k / p)%Q else c) in *.
  assert (Hm : (0 <= m)%Q /\ (m <= 1)%Q).
  { subst m. destruct (Qle_bool (k / p) c) eqn:E; reflect_Q; [|lra].
    assert (0 <= k / p)%Q by (apply Qle_shift_div_l; lra). lra. }
  cbn [resultsOf CalculationResults.ytd Ytd.totalMedicareCharges Ytd.medicareLevy
       Ytd.medicareLevySurcharge Ytd.net Ytd.gross Ytd.tax Ytd.super].
  rewrite Yg, Yt, Yl, Ym, Ytot, Yn, Ys, Ee, Et, El, Em, Er.
  cbn [Num.mul Num.add Num.sub Num.neg].
  destruct Hc, Hm.
  assert (0 <= e * r)%Q by (apply Qmult_le_0_compat; lra).
  repeat split;
    [ apply (share_within e m) | apply (share_within t m)
    | apply (share_within lv m) | apply (share_within mls m)
    | apply (share_within (lv + mls) m)
    | apply (share_within (e - t - (lv + mls)) m)
    | apply (share_within (e * r) m) ];
    try assumption; lra.
Qed.

(** X17.  When the employment start date is after a pay date from 1970 on,
    the day count is negative, no pay period is counted, and for a finite
    positive effective salary the year-to-date gross is negative. *)
Theorem employment_after_pay_date (tz : Z) (i : InputState.t) (l : Locals.t)
        (ms : Z) :
  computeLocals tz i = Ok l ->
  (-1440 <= tz <= 1440)%Z ->
  Locals.payDate l = Some ms ->
  (0 <= ms)%Z ->
  (Date.getTime (Locals.employmentStart l) >? Date.getTime (Locals.payDate l))
  = true ->
  Num.is_finite (Locals.annualSalary l) = true ->
  Num.is_finite (Locals.fte l) = true ->
  (0 <? Locals.effectiveAnnualSalary l) = true ->
  let r := resultsOf l in
  (Locals.daysDiff l <? 0) = true
  /\ (CalculationResults.periodsToDate r <=? 0) = true
  /\ (Ytd.gross (CalculationResults.ytd r) <? 0) = true.
Proof.
  intros H Htz Hpay Hms Hemp Hsal Hfte Hpos r. subst r.
  destruct (ytd_shares tz i l ms H Htz Hpay Hms)
    as (d & pd & Ed & Hd & Hneg & _ & _ & Eprop & Eptd & _ & Hk).
  apply Hneg in Hemp.
  assert (Hdays : Num.is_finite (Locals.daysDiff l) = true)
    by (rewrite Ed; reflexivity).
  assert (Hpos' : (0 <=? Locals.effectiveAnnualSalary l) = true).
  { destruct (Locals.effectiveAnnualSalary l); try discriminate; try reflexivity.
    apply ltb_Fin in Hpos. apply leb_Fin. lra. }
  destruct (ytd_as_shares tz i l H Hsal Hfte Hdays Hpos')
    as (e & t & lv & mls & r & p & k & c
        & (Ee & _ & _ & _ & _ & _ & Ek & Ec)
        & (He & _ & _ & _ & _ & _ & Hp)
        & qg & qt & ql & qm & qs & qn & qr
        & (Yg & _) & Hg & _).
  rewrite Eptd in Ek. apply Fin_inj in Ek.
  rewrite Eprop in Ec. apply Fin_inj in Ec.
  rewrite Ee in Hpos. apply ltb_Fin in Hpos.
  specialize (Hk Hemp). rewrite Ek in Hk.
  assert (Hdq : (inject_Z d < 0)%Q)
    by (change 0%Q with (inject_Z 0); rewrite <- Zlt_Qlt; assumption).
  assert (Hc : (c < 0)%Q).
  { rewrite <- Ec. apply Qlt_shift_div_r; lra. }
  cbn [resultsOf CalculationResults.ytd CalculationResults.periodsToDate Ytd.gross].
  rewrite Ed, Eptd, Yg, Ek.
  split; [apply ltb_Fin; exact Hdq|]. split; [apply leb_Fin; exact Hk|].
  apply ltb_Fin. rewrite Hg.
  destruct (Qle_bool (k / p) c) eqn:E; reflect_Q; nra.
Qed.

(** ** Hours and hourly rate *)




(** ** The further theorems at concrete inputs *)

Lemma no_tax_up_to_18200_witness :
  lookup taxBrackets "2025-26" <> None
  /\ (Fin 18200 <? Fin 18200) = false
  /\ exists tax, calculateTax 18200 "2025-26" = Ok tax /\ (tax === 0) = true.
Proof.
  assert (Hyear : lookup taxBrackets "2025-26" <> None) by discriminate.
  assert (Hle : (Fin 18200 <? Fin 18200) = false) by reflexivity.
  split; [exact Hyear|]. split; [exact Hle|].
  exact (no_tax_up_to_18200 "2025-26" 18200 Hyear Hle).
Defined.

Lemma tax_at_most_45_percent_witness :
  exists tax,
    calculateTax 90000 "2025-26" = Ok tax
    /\ (0 <= 90000)%Q
    /\ exists t, tax = Fin t /\ (0 <= t)%Q /\ (t <= 0.45 * 90000)%Q.
Proof.
  eexists. split; [reflexivity|].
  assert (Hpos : (0 <= 90000)%Q) by discriminate.
  split; [exact Hpos|].
  exact (tax_at_most_45_percent "2025-26" 90000 _ eq_refl Hpos).
Defined.

Lemma tax_monotone_on_whole_dollars_witness :
  lookup taxBrackets "2025-26" <> None
  /\ (0 <= 45000)%Z /\ (45000 <= 45001)%Z
  /\ exists tm tn,
       calculateTax (Fin (inject_Z 45000)) "2025-26" = Ok tm
       /\ calculateTax (Fin (inject_Z 45001)) "2025-26" = Ok tn
       /\ (tm <=? tn) = true.
Proof.
  assert (Hyear : lookup taxBrackets "2025-26" <> None) by discriminate.
  assert (H0 : (0 <= 45000)%Z) by discriminate.
  assert (H1 : (45000 <= 45001)%Z) by discriminate.
  split; [exact Hyear|]. split; [exact H0|]. split; [exact H1|].
  exact (tax_monotone_on_whole_dollars "2025-26" 45000 45001 Hyear H0 H1).
Defined.

Lemma medicare_levy_bounds_witness :
  exists levy,
    calculateMedicareLevy 30000 "2025-26" = Ok levy
    /\ exists v, levy = Fin v /\ (0 <= v)%Q /\ (v <= 0.02 * 30000)%Q.
Proof.
  eexists. split; [reflexivity|].
  destruct (medicare_levy_bounds "2025-26" 30000 _ eq_refl)
    as (v & Ev & Hv0 & _ & Hv & _).
  exists v. split; [exact Ev|]. split; [exact Hv0|].
  apply Hv. discriminate.
Defined.

Lemma surcharge_bounds_witness :
  exists first rest surcharge,
    lookup mlsThresholds "2025-26" = Some (first :: rest)
    /\ calculateMedicareLevySurcharge 120000 "2025-26" false = Ok surcharge
    /\ exists v, surcharge = Fin v /\ (0 <= v)%Q /\ (v <= 0.015 * 120000)%Q.
Proof.
  do 3 eexists. split; [reflexivity|]. split; [reflexivity|].
  destruct (surcharge_bounds "2025-26" 120000 _ _ _ eq_refl eq_refl)
    as (v & Ev & Hv0 & Hv & _).
  exists v. split; [exact Ev|]. split; [exact Hv0|].
  apply Hv. discriminate.
Defined.

Lemma net_income_within_gross_witness :
  exists l,
    computeLocals 600 scenario = Ok l
    /\ Num.is_finite (Locals.annualSalary l) = true
    /\ Num.is_finite (Locals.fte l) = true
    /\ (0 <=? Locals.effectiveAnnualSalary l) = true
    /\ (0.515 * CalculationResults.grossPay (resultsOf l)
        <=? CalculationResults.netIncome (resultsOf l)) = true
    /\ (CalculationResults.netIncome (resultsOf l)
        <=? CalculationResults.grossPay (resultsOf l)) = true.
Proof.
  eexists. split; [vm_compute; reflexivity|].
  split; [reflexivity|]. split; [reflexivity|]. split; [reflexivity|].
  destruct (net_income_within_gross 600 scenario _ eq_refl eq_refl eq_refl eq_refl)
    as (Hlow & Hhigh & _).
  split; [exact Hlow|exact Hhigh].
Defined.


Lemma period_end_date_is_ignored_witness :
  "2025-08-31" <> ""
  /\ InputState.periodEndDate (inputs (mkComponent scenario None)) <> ""
  /\ match inputChanged 600 (mkComponent scenario None) Field.periodEndDate
             "2025-08-31",
           calculateResults 600 (mkComponent scenario None) with
     | Ok changed, Ok kept => results changed = results kept
     | TypeError, TypeError => True
     | _, _ => False
     end.
Proof.
  assert (Hv : "2025-08-31" <> "") by discriminate.
  assert (Hold : InputState.periodEndDate (inputs (mkComponent scenario None)) <> "")
    by discriminate.
  split; [exact Hv|]. split; [exact Hold|].
  exact (period_end_date_is_ignored 600 (mkComponent scenario None)
           "2025-08-31" Hv Hold).
Defined.

Lemma insurance_never_lowers_net_witness :
  exists l0 l1,
    computeLocals 600
      (updateInputs (updateInputs scenario Field.annualSalary "120000")
         Field.hasPrivateHealthInsurance false) = Ok l0
    /\ computeLocals 600
         (updateInputs (updateInputs scenario Field.annualSalary "120000")
            Field.hasPrivateHealthInsurance true) = Ok l1
    /\ Num.is_finite (Locals.annualSalary l0) = true
    /\ Num.is_finite (Locals.fte l0) = true
    /\ CalculationResults.tax (resultsOf l0) = CalculationResults.tax (resultsOf l1)
    /\ (CalculationResults.netIncome (resultsOf l0)
        <=? CalculationResults.netIncome (resultsOf l1)) = true.
Proof.
  do 2 eexists. split; [vm_compute; reflexivity|].
  split; [vm_compute; reflexivity|].
  split; [reflexivity|]. split; [reflexivity|].
  destruct (insurance_never_lowers_net 600
              (updateInputs scenario Field.annualSalary "120000") _ _
              eq_refl eq_refl eq_refl eq_refl) as (_ & Ht & _ & _ & Hn).
  split; [exact Ht|exact Hn].
Defined.



Lemma surcharge_note_matches_inputs_witness :
  exists l,
    computeLocals 600 scenario = Ok l
    /\ InputState.hasPrivateHealthInsurance scenario = true
    /\ surchargeNote scenario (resultsOf l) = NoSurchargeInsured.
Proof.
  eexists. split; [vm_compute; reflexivity|]. split; [reflexivity|].
  exact (proj1 (surcharge_note_matches_inputs 600 scenario _ eq_refl) eq_refl).
Defined.


Lemma periods_to_date_range_witness :
  exists l,
    computeLocals 600 scenario = Ok l
    /\ (-1440 <= 600 <= 1440)%Z
    /\ Locals.payDate l = Some 1755216000000%Z
    /\ (0 <= 1755216000000)%Z
    /\ (Date.getTime (Locals.employmentStart l) >? Date.getTime (Locals.payDate l))
       = false
    /\ (1 <=? CalculationResults.periodsToDate (resultsOf l)) = true
    /\ (CalculationResults.periodsToDate (resultsOf l) <=? 53) = true.
Proof.
  eexists. split; [vm_compute; reflexivity|].
  assert (Htz : (-1440 <= 600 <= 1440)%Z) by (split; discriminate).
  assert (Hms : (0 <= 1755216000000)%Z) by discriminate.
  split; [exact Htz|]. split; [reflexivity|]. split; [exact Hms|].
  split; [reflexivity|].
  destruct (periods_to_date_range 600 scenario _ 1755216000000 eq_refl Htz eq_refl
              Hms eq_refl) as (Hlo & Hhi & _).
  split; [exact Hlo|exact Hhi].
Defined.

Lemma ytd_between_zero_and_annual_witness :
  exists l,
    computeLocals 600 scenario = Ok l
    /\ (-1440 <= 600 <= 1440)%Z
    /\ Locals.payDate l = Some 1755216000000%Z
    /\ (0 <= 1755216000000)%Z
    /\ (Date.getTime (Locals.employmentStart l) >? Date.getTime (Locals.payDate l))
       = false
    /\ Num.is_finite (Locals.annualSalary l) = true
    /\ Num.is_finite (Locals.fte l) = true
    /\ (0 <=? Locals.effectiveAnnualSalary l) = true
    /\ within 0 (Ytd.gross (CalculationResults.ytd (resultsOf l)))
         (Locals.effectiveAnnualSalary l) = true.
Proof.
  eexists. split; [vm_compute; reflexivity|].
  assert (Htz : (-1440 <= 600 <= 1440)%Z) by (split; discriminate).
  assert (Hms : (0 <= 1755216000000)%Z) by discriminate.
  split; [exact Htz|]. split; [reflexivity|]. split; [exact Hms|].
  split; [reflexivity|]. split; [reflexivity|]. split; [reflexivity|].
  split; [reflexivity|].
  exact (proj1 (ytd_between_zero_and_annual 600 scenario _ 1755216000000 eq_refl
                  Htz eq_refl Hms eq_refl eq_refl eq_refl eq_refl)).
Defined.

Lemma employment_after_pay_date_witness :
  exists l,
    computeLocals 600
      (updateInputs scenario Field.employmentStartDate "2025-09-01") = Ok l
    /\ (-1440 <= 600 <= 1440)%Z
    /\ Locals.payDate l = Some 1755216000000%Z
    /\ (0 <= 1755216000000)%Z
    /\ (Date.getTime (Locals.employmentStart l) >? Date.getTime (Locals.payDate l))
       = true
    /\ Num.is_finite (Locals.annualSalary l) = true
    /\ Num.is_finite (Locals.fte l) = true
    /\ (0 <? Locals.effectiveAnnualSalary l) = true
    /\ (Locals.daysDiff l <? 0) = true
    /\ (Ytd.gross (CalculationResults.ytd (resultsOf l)) <? 0) = true.
Proof.
  eexists. split; [vm_compute; reflexivity|].
  assert (Htz : (-1440 <= 600 <= 1440)%Z) by (split; discriminate).
  assert (Hms : (0 <= 1755216000000)%Z) by discriminate.
  split; [exact Htz|]. split; [reflexivity|]. split; [exact Hms|].
  split; [reflexivity|]. split; [reflexivity|]. split; [reflexivity|].
  split; [reflexivity|].
  destruct (employment_after_pay_date 600
              (updateInputs scenario Field.employmentStartDate "2025-09-01") _
              1755216000000 eq_refl Htz eq_refl Hms eq_refl eq_refl eq_refl eq_refl)
    as (Hd & _ & Hg).
  split; [exact Hd|exact Hg].
Defined.

